(** * The symbol-prefixing header of ring_core

    [prefix_symbols_asm.h] is a table of object-like macros, one per line,
    split by one platform conditional.  The header is embedded line by line;
    the renaming table of a platform class is what the C preprocessor has
    defined once it has read the header on that platform. *)

From Stdlib Require Import String Ascii List Bool Arith Lia Permutation.
Import ListNotations.
Open Scope string_scope.

(** ** The lines of the header *)

Inductive directive : Type :=
| Blank                                  (* an empty line *)
| Ifndef (m : string)                    (* #ifndef m *)
| IfDefined (m : string)                 (* #if defined(m) *)
| Else                                   (* #else *)
| Endif                                  (* #endif *)
| DefineEmpty (m : string)               (* #define m *)
| Define (old new : string).             (* #define old new *)

(** The 334 lines of the file, in order. *)
Definition prefix_symbols_asm_h : list directive :=
  [ Blank;
    Ifndef "ring_core_generated_PREFIX_SYMBOLS_ASM_H";
    DefineEmpty "ring_core_generated_PREFIX_SYMBOLS_ASM_H";
    Blank;
    IfDefined "__APPLE__";
    Define "_ecp_nistz256_point_double" "_p256_point_double";
    Define "_ecp_nistz256_point_add" "_p256_point_add";
    Define "_ecp_nistz256_point_add_affine" "_p256_point_add_affine";
    Define "_ecp_nistz256_ord_mul_mont" "_p256_scalar_mul_mont";
    Define "_ecp_nistz256_ord_sqr_mont" "_p256_scalar_sqr_rep_mont";
    Define "_ecp_nistz256_mul_mont" "_p256_mul_mont";
    Define "_ecp_nistz256_sqr_mont" "_p256_sqr_mont";
    Define "_adx_bmi2_available" "_ring_core_0_17_14__adx_bmi2_available";
    Define "_avx2_available" "_ring_core_0_17_14__avx2_available";
    Define "_CRYPTO_memcmp" "_ring_core_0_17_14__CRYPTO_memcmp";
    Define "_CRYPTO_poly1305_finish" "_ring_core_0_17_14__CRYPTO_poly1305_finish";
    Define "_CRYPTO_poly1305_finish_neon" "_ring_core_0_17_14__CRYPTO_poly1305_finish_neon";
    Define "_CRYPTO_poly1305_init" "_ring_core_0_17_14__CRYPTO_poly1305_init";
    Define "_CRYPTO_poly1305_init_neon" "_ring_core_0_17_14__CRYPTO_poly1305_init_neon";
    Define "_CRYPTO_poly1305_update" "_ring_core_0_17_14__CRYPTO_poly1305_update";
    Define "_CRYPTO_poly1305_update_neon" "_ring_core_0_17_14__CRYPTO_poly1305_update_neon";
    Define "_ChaCha20_ctr32" "_ring_core_0_17_14__ChaCha20_ctr32";
    Define "_ChaCha20_ctr32_avx2" "_ring_core_0_17_14__ChaCha20_ctr32_avx2";
    Define "_ChaCha20_ctr32_neon" "_ring_core_0_17_14__ChaCha20_ctr32_neon";
    Define "_ChaCha20_ctr32_nohw" "_ring_core_0_17_14__ChaCha20_ctr32_nohw";
    Define "_ChaCha20_ctr32_ssse3" "_ring_core_0_17_14__ChaCha20_ctr32_ssse3";
    Define "_ChaCha20_ctr32_ssse3_4x" "_ring_core_0_17_14__ChaCha20_ctr32_ssse3_4x";
    Define "_LIMB_is_zero" "_ring_core_0_17_14__LIMB_is_zero";
    Define "_LIMBS_add_mod" "_ring_core_0_17_14__LIMBS_add_mod";
    Define "_LIMBS_are_zero" "_ring_core_0_17_14__LIMBS_are_zero";
    Define "_LIMBS_equal" "_ring_core_0_17_14__LIMBS_equal";
    Define "_LIMBS_less_than" "_ring_core_0_17_14__LIMBS_less_than";
    Define "_LIMBS_reduce_once" "_ring_core_0_17_14__LIMBS_reduce_once";
    Define "_LIMBS_select_512_32" "_ring_core_0_17_14__LIMBS_select_512_32";
    Define "_LIMBS_shl_mod" "_ring_core_0_17_14__LIMBS_shl_mod";
    Define "_LIMBS_sub_mod" "_ring_core_0_17_14__LIMBS_sub_mod";
    Define "_LIMBS_window5_split_window" "_ring_core_0_17_14__LIMBS_window5_split_window";
    Define "_LIMBS_window5_unsplit_window" "_ring_core_0_17_14__LIMBS_window5_unsplit_window";
    Define "_LIMB_shr" "_ring_core_0_17_14__LIMB_shr";
    Define "_OPENSSL_cpuid_setup" "_ring_core_0_17_14__OPENSSL_cpuid_setup";
    Define "_aes_gcm_dec_kernel" "_ring_core_0_17_14__aes_gcm_dec_kernel";
    Define "_aes_gcm_dec_update_vaes_avx2" "_ring_core_0_17_14__aes_gcm_dec_update_vaes_avx2";
    Define "_aes_gcm_enc_kernel" "_ring_core_0_17_14__aes_gcm_enc_kernel";
    Define "_aes_gcm_enc_update_vaes_avx2" "_ring_core_0_17_14__aes_gcm_enc_update_vaes_avx2";
    Define "_aes_hw_ctr32_encrypt_blocks" "_ring_core_0_17_14__aes_hw_ctr32_encrypt_blocks";
    Define "_aes_hw_set_encrypt_key" "_ring_core_0_17_14__aes_hw_set_encrypt_key";
    Define "_aes_hw_set_encrypt_key_alt" "_ring_core_0_17_14__aes_hw_set_encrypt_key_alt";
    Define "_aes_hw_set_encrypt_key_base" "_ring_core_0_17_14__aes_hw_set_encrypt_key_base";
    Define "_aes_nohw_ctr32_encrypt_blocks" "_ring_core_0_17_14__aes_nohw_ctr32_encrypt_blocks";
    Define "_aes_nohw_encrypt" "_ring_core_0_17_14__aes_nohw_encrypt";
    Define "_aes_nohw_set_encrypt_key" "_ring_core_0_17_14__aes_nohw_set_encrypt_key";
    Define "_aesni_gcm_decrypt" "_ring_core_0_17_14__aesni_gcm_decrypt";
    Define "_aesni_gcm_encrypt" "_ring_core_0_17_14__aesni_gcm_encrypt";
    Define "_bn_from_montgomery_in_place" "_ring_core_0_17_14__bn_from_montgomery_in_place";
    Define "_bn_gather5" "_ring_core_0_17_14__bn_gather5";
    Define "_bn_mul_mont" "_ring_core_0_17_14__bn_mul_mont";
    Define "_bn_mul_mont_nohw" "_ring_core_0_17_14__bn_mul_mont_nohw";
    Define "_bn_mul4x_mont" "_ring_core_0_17_14__bn_mul4x_mont";
    Define "_bn_mulx4x_mont" "_ring_core_0_17_14__bn_mulx4x_mont";
    Define "_bn_mul8x_mont_neon" "_ring_core_0_17_14__bn_mul8x_mont_neon";
    Define "_bn_mul4x_mont_gather5" "_ring_core_0_17_14__bn_mul4x_mont_gather5";
    Define "_bn_mulx4x_mont_gather5" "_ring_core_0_17_14__bn_mulx4x_mont_gather5";
    Define "_bn_neg_inv_mod_r_u64" "_ring_core_0_17_14__bn_neg_inv_mod_r_u64";
    Define "_bn_power5_nohw" "_ring_core_0_17_14__bn_power5_nohw";
    Define "_bn_powerx5" "_ring_core_0_17_14__bn_powerx5";
    Define "_bn_scatter5" "_ring_core_0_17_14__bn_scatter5";
    Define "_bn_sqr8x_internal" "_ring_core_0_17_14__bn_sqr8x_internal";
    Define "_bn_sqr8x_mont" "_ring_core_0_17_14__bn_sqr8x_mont";
    Define "_bn_sqrx8x_internal" "_ring_core_0_17_14__bn_sqrx8x_internal";
    Define "_bsaes_ctr32_encrypt_blocks" "_ring_core_0_17_14__bsaes_ctr32_encrypt_blocks";
    Define "_bssl_constant_time_test_conditional_memcpy" "_ring_core_0_17_14__bssl_constant_time_test_conditional_memcpy";
    Define "_bssl_constant_time_test_conditional_memxor" "_ring_core_0_17_14__bssl_constant_time_test_conditional_memxor";
    Define "_bssl_constant_time_test_main" "_ring_core_0_17_14__bssl_constant_time_test_main";
    Define "_chacha20_poly1305_open" "_ring_core_0_17_14__chacha20_poly1305_open";
    Define "_chacha20_poly1305_open_avx2" "_ring_core_0_17_14__chacha20_poly1305_open_avx2";
    Define "_chacha20_poly1305_open_sse41" "_ring_core_0_17_14__chacha20_poly1305_open_sse41";
    Define "_chacha20_poly1305_seal" "_ring_core_0_17_14__chacha20_poly1305_seal";
    Define "_chacha20_poly1305_seal_avx2" "_ring_core_0_17_14__chacha20_poly1305_seal_avx2";
    Define "_chacha20_poly1305_seal_sse41" "_ring_core_0_17_14__chacha20_poly1305_seal_sse41";
    Define "_ecp_nistz256_mul_mont_adx" "_ring_core_0_17_14__ecp_nistz256_mul_mont_adx";
    Define "_ecp_nistz256_mul_mont_nohw" "_ring_core_0_17_14__ecp_nistz256_mul_mont_nohw";
    Define "_ecp_nistz256_ord_mul_mont_adx" "_ring_core_0_17_14__ecp_nistz256_ord_mul_mont_adx";
    Define "_ecp_nistz256_ord_mul_mont_nohw" "_ring_core_0_17_14__ecp_nistz256_ord_mul_mont_nohw";
    Define "_ecp_nistz256_ord_sqr_mont_adx" "_ring_core_0_17_14__ecp_nistz256_ord_sqr_mont_adx";
    Define "_ecp_nistz256_ord_sqr_mont_nohw" "_ring_core_0_17_14__ecp_nistz256_ord_sqr_mont_nohw";
    Define "_ecp_nistz256_point_add_adx" "_ring_core_0_17_14__ecp_nistz256_point_add_adx";
    Define "_ecp_nistz256_point_add_nohw" "_ring_core_0_17_14__ecp_nistz256_point_add_nohw";
    Define "_ecp_nistz256_point_add_affine_adx" "_ring_core_0_17_14__ecp_nistz256_point_add_affine_adx";
    Define "_ecp_nistz256_point_add_affine_nohw" "_ring_core_0_17_14__ecp_nistz256_point_add_affine_nohw";
    Define "_ecp_nistz256_point_double_adx" "_ring_core_0_17_14__ecp_nistz256_point_double_adx";
    Define "_ecp_nistz256_point_double_nohw" "_ring_core_0_17_14__ecp_nistz256_point_double_nohw";
    Define "_ecp_nistz256_select_w5_avx2" "_ring_core_0_17_14__ecp_nistz256_select_w5_avx2";
    Define "_ecp_nistz256_select_w5_nohw" "_ring_core_0_17_14__ecp_nistz256_select_w5_nohw";
    Define "_ecp_nistz256_select_w7_avx2" "_ring_core_0_17_14__ecp_nistz256_select_w7_avx2";
    Define "_ecp_nistz256_select_w7_nohw" "_ring_core_0_17_14__ecp_nistz256_select_w7_nohw";
    Define "_ecp_nistz256_sqr_mont_adx" "_ring_core_0_17_14__ecp_nistz256_sqr_mont_adx";
    Define "_ecp_nistz256_sqr_mont_nohw" "_ring_core_0_17_14__ecp_nistz256_sqr_mont_nohw";
    Define "_fiat_curve25519_adx_mul" "_ring_core_0_17_14__fiat_curve25519_adx_mul";
    Define "_fiat_curve25519_adx_square" "_ring_core_0_17_14__fiat_curve25519_adx_square";
    Define "_gcm_ghash_avx" "_ring_core_0_17_14__gcm_ghash_avx";
    Define "_gcm_ghash_clmul" "_ring_core_0_17_14__gcm_ghash_clmul";
    Define "_gcm_ghash_neon" "_ring_core_0_17_14__gcm_ghash_neon";
    Define "_gcm_ghash_vpclmulqdq_avx2_1" "_ring_core_0_17_14__gcm_ghash_vpclmulqdq_avx2_1";
    Define "_gcm_gmult_clmul" "_ring_core_0_17_14__gcm_gmult_clmul";
    Define "_gcm_gmult_neon" "_ring_core_0_17_14__gcm_gmult_neon";
    Define "_gcm_init_avx" "_ring_core_0_17_14__gcm_init_avx";
    Define "_gcm_init_clmul" "_ring_core_0_17_14__gcm_init_clmul";
    Define "_gcm_init_neon" "_ring_core_0_17_14__gcm_init_neon";
    Define "_gcm_init_vpclmulqdq_avx2" "_ring_core_0_17_14__gcm_init_vpclmulqdq_avx2";
    Define "_k25519Precomp" "_ring_core_0_17_14__k25519Precomp";
    Define "_limbs_mul_add_limb" "_ring_core_0_17_14__limbs_mul_add_limb";
    Define "_little_endian_bytes_from_scalar" "_ring_core_0_17_14__little_endian_bytes_from_scalar";
    Define "_ecp_nistz256_neg" "_ring_core_0_17_14__ecp_nistz256_neg";
    Define "_ecp_nistz256_select_w5" "_ring_core_0_17_14__ecp_nistz256_select_w5";
    Define "_ecp_nistz256_select_w7" "_ring_core_0_17_14__ecp_nistz256_select_w7";
    Define "_neon_available" "_ring_core_0_17_14__neon_available";
    Define "_p256_mul_mont" "_ring_core_0_17_14__p256_mul_mont";
    Define "_p256_point_add" "_ring_core_0_17_14__p256_point_add";
    Define "_p256_point_add_affine" "_ring_core_0_17_14__p256_point_add_affine";
    Define "_p256_point_double" "_ring_core_0_17_14__p256_point_double";
    Define "_p256_point_mul" "_ring_core_0_17_14__p256_point_mul";
    Define "_p256_point_mul_base" "_ring_core_0_17_14__p256_point_mul_base";
    Define "_p256_point_mul_base_vartime" "_ring_core_0_17_14__p256_point_mul_base_vartime";
    Define "_p256_scalar_mul_mont" "_ring_core_0_17_14__p256_scalar_mul_mont";
    Define "_p256_scalar_sqr_rep_mont" "_ring_core_0_17_14__p256_scalar_sqr_rep_mont";
    Define "_p256_sqr_mont" "_ring_core_0_17_14__p256_sqr_mont";
    Define "_p384_elem_div_by_2" "_ring_core_0_17_14__p384_elem_div_by_2";
    Define "_p384_elem_mul_mont" "_ring_core_0_17_14__p384_elem_mul_mont";
    Define "_p384_elem_neg" "_ring_core_0_17_14__p384_elem_neg";
    Define "_p384_elem_sub" "_ring_core_0_17_14__p384_elem_sub";
    Define "_p384_point_add" "_ring_core_0_17_14__p384_point_add";
    Define "_p384_point_double" "_ring_core_0_17_14__p384_point_double";
    Define "_p384_point_mul" "_ring_core_0_17_14__p384_point_mul";
    Define "_p384_scalar_mul_mont" "_ring_core_0_17_14__p384_scalar_mul_mont";
    Define "_openssl_poly1305_neon2_addmulmod" "_ring_core_0_17_14__openssl_poly1305_neon2_addmulmod";
    Define "_openssl_poly1305_neon2_blocks" "_ring_core_0_17_14__openssl_poly1305_neon2_blocks";
    Define "_sha256_block_data_order" "_ring_core_0_17_14__sha256_block_data_order";
    Define "_sha256_block_data_order_avx" "_ring_core_0_17_14__sha256_block_data_order_avx";
    Define "_sha256_block_data_order_ssse3" "_ring_core_0_17_14__sha256_block_data_order_ssse3";
    Define "_sha256_block_data_order_hw" "_ring_core_0_17_14__sha256_block_data_order_hw";
    Define "_sha256_block_data_order_neon" "_ring_core_0_17_14__sha256_block_data_order_neon";
    Define "_sha256_block_data_order_nohw" "_ring_core_0_17_14__sha256_block_data_order_nohw";
    Define "_sha512_block_data_order" "_ring_core_0_17_14__sha512_block_data_order";
    Define "_sha512_block_data_order_avx" "_ring_core_0_17_14__sha512_block_data_order_avx";
    Define "_sha512_block_data_order_hw" "_ring_core_0_17_14__sha512_block_data_order_hw";
    Define "_sha512_block_data_order_neon" "_ring_core_0_17_14__sha512_block_data_order_neon";
    Define "_sha512_block_data_order_nohw" "_ring_core_0_17_14__sha512_block_data_order_nohw";
    Define "_vpaes_ctr32_encrypt_blocks" "_ring_core_0_17_14__vpaes_ctr32_encrypt_blocks";
    Define "_vpaes_encrypt" "_ring_core_0_17_14__vpaes_encrypt";
    Define "_vpaes_encrypt_key_to_bsaes" "_ring_core_0_17_14__vpaes_encrypt_key_to_bsaes";
    Define "_vpaes_set_encrypt_key" "_ring_core_0_17_14__vpaes_set_encrypt_key";
    Define "_x25519_NEON" "_ring_core_0_17_14__x25519_NEON";
    Define "_x25519_fe_invert" "_ring_core_0_17_14__x25519_fe_invert";
    Define "_x25519_fe_isnegative" "_ring_core_0_17_14__x25519_fe_isnegative";
    Define "_x25519_fe_mul_ttt" "_ring_core_0_17_14__x25519_fe_mul_ttt";
    Define "_x25519_fe_neg" "_ring_core_0_17_14__x25519_fe_neg";
    Define "_x25519_fe_tobytes" "_ring_core_0_17_14__x25519_fe_tobytes";
    Define "_x25519_ge_double_scalarmult_vartime" "_ring_core_0_17_14__x25519_ge_double_scalarmult_vartime";
    Define "_x25519_ge_frombytes_vartime" "_ring_core_0_17_14__x25519_ge_frombytes_vartime";
    Define "_x25519_ge_scalarmult_base" "_ring_core_0_17_14__x25519_ge_scalarmult_base";
    Define "_x25519_ge_scalarmult_base_adx" "_ring_core_0_17_14__x25519_ge_scalarmult_base_adx";
    Define "_x25519_public_from_private_generic_masked" "_ring_core_0_17_14__x25519_public_from_private_generic_masked";
    Define "_x25519_sc_mask" "_ring_core_0_17_14__x25519_sc_mask";
    Define "_x25519_sc_muladd" "_ring_core_0_17_14__x25519_sc_muladd";
    Define "_x25519_sc_reduce" "_ring_core_0_17_14__x25519_sc_reduce";
    Define "_x25519_scalar_mult_adx" "_ring_core_0_17_14__x25519_scalar_mult_adx";
    Define "_x25519_scalar_mult_generic_masked" "_ring_core_0_17_14__x25519_scalar_mult_generic_masked";
    Blank;
    Else;
    Define "ecp_nistz256_point_double" "p256_point_double";
    Define "ecp_nistz256_point_add" "p256_point_add";
    Define "ecp_nistz256_point_add_affine" "p256_point_add_affine";
    Define "ecp_nistz256_ord_mul_mont" "p256_scalar_mul_mont";
    Define "ecp_nistz256_ord_sqr_mont" "p256_scalar_sqr_rep_mont";
    Define "ecp_nistz256_mul_mont" "p256_mul_mont";
    Define "ecp_nistz256_sqr_mont" "p256_sqr_mont";
    Define "adx_bmi2_available" "ring_core_0_17_14__adx_bmi2_available";
    Define "avx2_available" "ring_core_0_17_14__avx2_available";
    Define "CRYPTO_memcmp" "ring_core_0_17_14__CRYPTO_memcmp";
    Define "CRYPTO_poly1305_finish" "ring_core_0_17_14__CRYPTO_poly1305_finish";
    Define "CRYPTO_poly1305_finish_neon" "ring_core_0_17_14__CRYPTO_poly1305_finish_neon";
    Define "CRYPTO_poly1305_init" "ring_core_0_17_14__CRYPTO_poly1305_init";
    Define "CRYPTO_poly1305_init_neon" "ring_core_0_17_14__CRYPTO_poly1305_init_neon";
    Define "CRYPTO_poly1305_update" "ring_core_0_17_14__CRYPTO_poly1305_update";
    Define "CRYPTO_poly1305_update_neon" "ring_core_0_17_14__CRYPTO_poly1305_update_neon";
    Define "ChaCha20_ctr32" "ring_core_0_17_14__ChaCha20_ctr32";
    Define "ChaCha20_ctr32_avx2" "ring_core_0_17_14__ChaCha20_ctr32_avx2";
    Define "ChaCha20_ctr32_neon" "ring_core_0_17_14__ChaCha20_ctr32_neon";
    Define "ChaCha20_ctr32_nohw" "ring_core_0_17_14__ChaCha20_ctr32_nohw";
    Define "ChaCha20_ctr32_ssse3" "ring_core_0_17_14__ChaCha20_ctr32_ssse3";
    Define "ChaCha20_ctr32_ssse3_4x" "ring_core_0_17_14__ChaCha20_ctr32_ssse3_4x";
    Define "LIMB_is_zero" "ring_core_0_17_14__LIMB_is_zero";
    Define "LIMBS_add_mod" "ring_core_0_17_14__LIMBS_add_mod";
    Define "LIMBS_are_zero" "ring_core_0_17_14__LIMBS_are_zero";
    Define "LIMBS_equal" "ring_core_0_17_14__LIMBS_equal";
    Define "LIMBS_less_than" "ring_core_0_17_14__LIMBS_less_than";
    Define "LIMBS_reduce_once" "ring_core_0_17_14__LIMBS_reduce_once";
    Define "LIMBS_select_512_32" "ring_core_0_17_14__LIMBS_select_512_32";
    Define "LIMBS_shl_mod" "ring_core_0_17_14__LIMBS_shl_mod";
    Define "LIMBS_sub_mod" "ring_core_0_17_14__LIMBS_sub_mod";
    Define "LIMBS_window5_split_window" "ring_core_0_17_14__LIMBS_window5_split_window";
    Define "LIMBS_window5_unsplit_window" "ring_core_0_17_14__LIMBS_window5_unsplit_window";
    Define "LIMB_shr" "ring_core_0_17_14__LIMB_shr";
    Define "OPENSSL_cpuid_setup" "ring_core_0_17_14__OPENSSL_cpuid_setup";
    Define "aes_gcm_dec_kernel" "ring_core_0_17_14__aes_gcm_dec_kernel";
    Define "aes_gcm_dec_update_vaes_avx2" "ring_core_0_17_14__aes_gcm_dec_update_vaes_avx2";
    Define "aes_gcm_enc_kernel" "ring_core_0_17_14__aes_gcm_enc_kernel";
    Define "aes_gcm_enc_update_vaes_avx2" "ring_core_0_17_14__aes_gcm_enc_update_vaes_avx2";
    Define "aes_hw_ctr32_encrypt_blocks" "ring_core_0_17_14__aes_hw_ctr32_encrypt_blocks";
    Define "aes_hw_set_encrypt_key" "ring_core_0_17_14__aes_hw_set_encrypt_key";
    Define "aes_hw_set_encrypt_key_alt" "ring_core_0_17_14__aes_hw_set_encrypt_key_alt";
    Define "aes_hw_set_encrypt_key_base" "ring_core_0_17_14__aes_hw_set_encrypt_key_base";
    Define "aes_nohw_ctr32_encrypt_blocks" "ring_core_0_17_14__aes_nohw_ctr32_encrypt_blocks";
    Define "aes_nohw_encrypt" "ring_core_0_17_14__aes_nohw_encrypt";
    Define "aes_nohw_set_encrypt_key" "ring_core_0_17_14__aes_nohw_set_encrypt_key";
    Define "aesni_gcm_decrypt" "ring_core_0_17_14__aesni_gcm_decrypt";
    Define "aesni_gcm_encrypt" "ring_core_0_17_14__aesni_gcm_encrypt";
    Define "bn_from_montgomery_in_place" "ring_core_0_17_14__bn_from_montgomery_in_place";
    Define "bn_gather5" "ring_core_0_17_14__bn_gather5";
    Define "bn_mul_mont" "ring_core_0_17_14__bn_mul_mont";
    Define "bn_mul_mont_nohw" "ring_core_0_17_14__bn_mul_mont_nohw";
    Define "bn_mul4x_mont" "ring_core_0_17_14__bn_mul4x_mont";
    Define "bn_mulx4x_mont" "ring_core_0_17_14__bn_mulx4x_mont";
    Define "bn_mul8x_mont_neon" "ring_core_0_17_14__bn_mul8x_mont_neon";
    Define "bn_mul4x_mont_gather5" "ring_core_0_17_14__bn_mul4x_mont_gather5";
    Define "bn_mulx4x_mont_gather5" "ring_core_0_17_14__bn_mulx4x_mont_gather5";
    Define "bn_neg_inv_mod_r_u64" "ring_core_0_17_14__bn_neg_inv_mod_r_u64";
    Define "bn_power5_nohw" "ring_core_0_17_14__bn_power5_nohw";
    Define "bn_powerx5" "ring_core_0_17_14__bn_powerx5";
    Define "bn_scatter5" "ring_core_0_17_14__bn_scatter5";
    Define "bn_sqr8x_internal" "ring_core_0_17_14__bn_sqr8x_internal";
    Define "bn_sqr8x_mont" "ring_core_0_17_14__bn_sqr8x_mont";
    Define "bn_sqrx8x_internal" "ring_core_0_17_14__bn_sqrx8x_internal";
    Define "bsaes_ctr32_encrypt_blocks" "ring_core_0_17_14__bsaes_ctr32_encrypt_blocks";
    Define "bssl_constant_time_test_conditional_memcpy" "ring_core_0_17_14__bssl_constant_time_test_conditional_memcpy";
    Define "bssl_constant_time_test_conditional_memxor" "ring_core_0_17_14__bssl_constant_time_test_conditional_memxor";
    Define "bssl_constant_time_test_main" "ring_core_0_17_14__bssl_constant_time_test_main";
    Define "chacha20_poly1305_open" "ring_core_0_17_14__chacha20_poly1305_open";
    Define "chacha20_poly1305_open_avx2" "ring_core_0_17_14__chacha20_poly1305_open_avx2";
    Define "chacha20_poly1305_open_sse41" "ring_core_0_17_14__chacha20_poly1305_open_sse41";
    Define "chacha20_poly1305_seal" "ring_core_0_17_14__chacha20_poly1305_seal";
    Define "chacha20_poly1305_seal_avx2" "ring_core_0_17_14__chacha20_poly1305_seal_avx2";
    Define "chacha20_poly1305_seal_sse41" "ring_core_0_17_14__chacha20_poly1305_seal_sse41";
    Define "ecp_nistz256_mul_mont_adx" "ring_core_0_17_14__ecp_nistz256_mul_mont_adx";
    Define "ecp_nistz256_mul_mont_nohw" "ring_core_0_17_14__ecp_nistz256_mul_mont_nohw";
    Define "ecp_nistz256_ord_mul_mont_adx" "ring_core_0_17_14__ecp_nistz256_ord_mul_mont_adx";
    Define "ecp_nistz256_ord_mul_mont_nohw" "ring_core_0_17_14__ecp_nistz256_ord_mul_mont_nohw";
    Define "ecp_nistz256_ord_sqr_mont_adx" "ring_core_0_17_14__ecp_nistz256_ord_sqr_mont_adx";
    Define "ecp_nistz256_ord_sqr_mont_nohw" "ring_core_0_17_14__ecp_nistz256_ord_sqr_mont_nohw";
    Define "ecp_nistz256_point_add_adx" "ring_core_0_17_14__ecp_nistz256_point_add_adx";
    Define "ecp_nistz256_point_add_nohw" "ring_core_0_17_14__ecp_nistz256_point_add_nohw";
    Define "ecp_nistz256_point_add_affine_adx" "ring_core_0_17_14__ecp_nistz256_point_add_affine_adx";
    Define "ecp_nistz256_point_add_affine_nohw" "ring_core_0_17_14__ecp_nistz256_point_add_affine_nohw";
    Define "ecp_nistz256_point_double_adx" "ring_core_0_17_14__ecp_nistz256_point_double_adx";
    Define "ecp_nistz256_point_double_nohw" "ring_core_0_17_14__ecp_nistz256_point_double_nohw";
    Define "ecp_nistz256_select_w5_avx2" "ring_core_0_17_14__ecp_nistz256_select_w5_avx2";
    Define "ecp_nistz256_select_w5_nohw" "ring_core_0_17_14__ecp_nistz256_select_w5_nohw";
    Define "ecp_nistz256_select_w7_avx2" "ring_core_0_17_14__ecp_nistz256_select_w7_avx2";
    Define "ecp_nistz256_select_w7_nohw" "ring_core_0_17_14__ecp_nistz256_select_w7_nohw";
    Define "ecp_nistz256_sqr_mont_adx" "ring_core_0_17_14__ecp_nistz256_sqr_mont_adx";
    Define "ecp_nistz256_sqr_mont_nohw" "ring_core_0_17_14__ecp_nistz256_sqr_mont_nohw";
    Define "fiat_curve25519_adx_mul" "ring_core_0_17_14__fiat_curve25519_adx_mul";
    Define "fiat_curve25519_adx_square" "ring_core_0_17_14__fiat_curve25519_adx_square";
    Define "gcm_ghash_avx" "ring_core_0_17_14__gcm_ghash_avx";
    Define "gcm_ghash_clmul" "ring_core_0_17_14__gcm_ghash_clmul";
    Define "gcm_ghash_neon" "ring_core_0_17_14__gcm_ghash_neon";
    Define "gcm_ghash_vpclmulqdq_avx2_1" "ring_core_0_17_14__gcm_ghash_vpclmulqdq_avx2_1";
    Define "gcm_gmult_clmul" "ring_core_0_17_14__gcm_gmult_clmul";
    Define "gcm_gmult_neon" "ring_core_0_17_14__gcm_gmult_neon";
    Define "gcm_init_avx" "ring_core_0_17_14__gcm_init_avx";
    Define "gcm_init_clmul" "ring_core_0_17_14__gcm_init_clmul";
    Define "gcm_init_neon" "ring_core_0_17_14__gcm_init_neon";
    Define "gcm_init_vpclmulqdq_avx2" "ring_core_0_17_14__gcm_init_vpclmulqdq_avx2";
    Define "k25519Precomp" "ring_core_0_17_14__k25519Precomp";
    Define "limbs_mul_add_limb" "ring_core_0_17_14__limbs_mul_add_limb";
    Define "little_endian_bytes_from_scalar" "ring_core_0_17_14__little_endian_bytes_from_scalar";
    Define "ecp_nistz256_neg" "ring_core_0_17_14__ecp_nistz256_neg";
    Define "ecp_nistz256_select_w5" "ring_core_0_17_14__ecp_nistz256_select_w5";
    Define "ecp_nistz256_select_w7" "ring_core_0_17_14__ecp_nistz256_select_w7";
    Define "neon_available" "ring_core_0_17_14__neon_available";
    Define "p256_mul_mont" "ring_core_0_17_14__p256_mul_mont";
    Define "p256_point_add" "ring_core_0_17_14__p256_point_add";
    Define "p256_point_add_affine" "ring_core_0_17_14__p256_point_add_affine";
    Define "p256_point_double" "ring_core_0_17_14__p256_point_double";
    Define "p256_point_mul" "ring_core_0_17_14__p256_point_mul";
    Define "p256_point_mul_base" "ring_core_0_17_14__p256_point_mul_base";
    Define "p256_point_mul_base_vartime" "ring_core_0_17_14__p256_point_mul_base_vartime";
    Define "p256_scalar_mul_mont" "ring_core_0_17_14__p256_scalar_mul_mont";
    Define "p256_scalar_sqr_rep_mont" "ring_core_0_17_14__p256_scalar_sqr_rep_mont";
    Define "p256_sqr_mont" "ring_core_0_17_14__p256_sqr_mont";
    Define "p384_elem_div_by_2" "ring_core_0_17_14__p384_elem_div_by_2";
    Define "p384_elem_mul_mont" "ring_core_0_17_14__p384_elem_mul_mont";
    Define "p384_elem_neg" "ring_core_0_17_14__p384_elem_neg";
    Define "p384_elem_sub" "ring_core_0_17_14__p384_elem_sub";
    Define "p384_point_add" "ring_core_0_17_14__p384_point_add";
    Define "p384_point_double" "ring_core_0_17_14__p384_point_double";
    Define "p384_point_mul" "ring_core_0_17_14__p384_point_mul";
    Define "p384_scalar_mul_mont" "ring_core_0_17_14__p384_scalar_mul_mont";
    Define "openssl_poly1305_neon2_addmulmod" "ring_core_0_17_14__openssl_poly1305_neon2_addmulmod";
    Define "openssl_poly1305_neon2_blocks" "ring_core_0_17_14__openssl_poly1305_neon2_blocks";
    Define "sha256_block_data_order" "ring_core_0_17_14__sha256_block_data_order";
    Define "sha256_block_data_order_avx" "ring_core_0_17_14__sha256_block_data_order_avx";
    Define "sha256_block_data_order_ssse3" "ring_core_0_17_14__sha256_block_data_order_ssse3";
    Define "sha256_block_data_order_hw" "ring_core_0_17_14__sha256_block_data_order_hw";
    Define "sha256_block_data_order_neon" "ring_core_0_17_14__sha256_block_data_order_neon";
    Define "sha256_block_data_order_nohw" "ring_core_0_17_14__sha256_block_data_order_nohw";
    Define "sha512_block_data_order" "ring_core_0_17_14__sha512_block_data_order";
    Define "sha512_block_data_order_avx" "ring_core_0_17_14__sha512_block_data_order_avx";
    Define "sha512_block_data_order_hw" "ring_core_0_17_14__sha512_block_data_order_hw";
    Define "sha512_block_data_order_neon" "ring_core_0_17_14__sha512_block_data_order_neon";
    Define "sha512_block_data_order_nohw" "ring_core_0_17_14__sha512_block_data_order_nohw";
    Define "vpaes_ctr32_encrypt_blocks" "ring_core_0_17_14__vpaes_ctr32_encrypt_blocks";
    Define "vpaes_encrypt" "ring_core_0_17_14__vpaes_encrypt";
    Define "vpaes_encrypt_key_to_bsaes" "ring_core_0_17_14__vpaes_encrypt_key_to_bsaes";
    Define "vpaes_set_encrypt_key" "ring_core_0_17_14__vpaes_set_encrypt_key";
    Define "x25519_NEON" "ring_core_0_17_14__x25519_NEON";
    Define "x25519_fe_invert" "ring_core_0_17_14__x25519_fe_invert";
    Define "x25519_fe_isnegative" "ring_core_0_17_14__x25519_fe_isnegative";
    Define "x25519_fe_mul_ttt" "ring_core_0_17_14__x25519_fe_mul_ttt";
    Define "x25519_fe_neg" "ring_core_0_17_14__x25519_fe_neg";
    Define "x25519_fe_tobytes" "ring_core_0_17_14__x25519_fe_tobytes";
    Define "x25519_ge_double_scalarmult_vartime" "ring_core_0_17_14__x25519_ge_double_scalarmult_vartime";
    Define "x25519_ge_frombytes_vartime" "ring_core_0_17_14__x25519_ge_frombytes_vartime";
    Define "x25519_ge_scalarmult_base" "ring_core_0_17_14__x25519_ge_scalarmult_base";
    Define "x25519_ge_scalarmult_base_adx" "ring_core_0_17_14__x25519_ge_scalarmult_base_adx";
    Define "x25519_public_from_private_generic_masked" "ring_core_0_17_14__x25519_public_from_private_generic_masked";
    Define "x25519_sc_mask" "ring_core_0_17_14__x25519_sc_mask";
    Define "x25519_sc_muladd" "ring_core_0_17_14__x25519_sc_muladd";
    Define "x25519_sc_reduce" "ring_core_0_17_14__x25519_sc_reduce";
    Define "x25519_scalar_mult_adx" "ring_core_0_17_14__x25519_scalar_mult_adx";
    Define "x25519_scalar_mult_generic_masked" "ring_core_0_17_14__x25519_scalar_mult_generic_masked";
    Blank;
    Endif;
    Endif ].

(** ** Platform classes *)

Inductive platform : Type := Apple | Other.

(** Macros the compiler predefines, each with its replacement: [__APPLE__],
    which stands for 1, on Apple targets only. *)
Definition predefined (p : platform) : list (string * option string) :=
  match p with
  | Apple => [("__APPLE__", Some "1")]
  | Other => []
  end.

(** ** The preprocessor on this header *)

Module Cpp.

(** A macro environment: the [#define] lines taken so far, oldest first,
    each with its replacement ([None]: an empty replacement).  The first
    entry of a name is its definition. *)
Definition env : Type := list (string * option string).

Fixpoint assoc {A : Type} (k : string) (l : list (string * A)) : option A :=
  match l with
  | [] => None
  | (k', a) :: l' => if String.eqb k k' then Some a else assoc k l'
  end.

Definition mem (k : string) (l : list string) : bool :=
  existsb (String.eqb k) l.

Definition body_eqb (a b : option string) : bool :=
  match a, b with
  | None, None => true
  | Some x, Some y => String.eqb x y
  | _, _ => false
  end.

(** What the name [m] stands for where the macros [predef] are predefined
    and the lines [ms] have been taken. *)
Definition definition (predef ms : env) (m : string) : option (option string) :=
  assoc m (predef ++ ms)%list.

(** [defined(m)] *)
Definition is_defined (predef ms : env) (m : string) : bool :=
  match definition predef ms m with Some _ => true | None => false end.

(** The state while reading a file: the environment and, innermost first,
    whether each open conditional group is being kept. *)
Record state : Type := mkState { macros : env; conds : list bool }.

Definition active (st : state) : bool := forallb (fun b => b) (conds st).

(** [#define k b]: the line is recorded; defining a macro again, a
    predefined one or one of an earlier line, is allowed with the same
    replacement only, with another one it is an error. *)
Definition define (predef : env) (k : string) (b : option string) (st : state)
  : option state :=
  let st' := mkState (macros st ++ [(k, b)])%list (conds st) in
  match definition predef (macros st) k with
  | None => Some st'
  | Some b' => if body_eqb b b' then Some st' else None
  end.

Definition step (predef : env) (d : directive) (st : state) : option state :=
  match d with
  | Blank => Some st
  | Ifndef m =>
      Some (mkState (macros st) (negb (is_defined predef (macros st) m) :: conds st))
  | IfDefined m =>
      Some (mkState (macros st) (is_defined predef (macros st) m :: conds st))
  | Else =>
      match conds st with
      | [] => None
      | c :: cs => Some (mkState (macros st) (negb c :: cs))
      end
  | Endif =>
      match conds st with
      | [] => None
      | _ :: cs => Some (mkState (macros st) cs)
      end
  | DefineEmpty m => if active st then define predef m None st else Some st
  | Define old new => if active st then define predef old (Some new) st else Some st
  end.

Fixpoint steps (predef : env) (ds : list directive) (st : state) : option state :=
  match ds with
  | [] => Some st
  | d :: ds' =>
      match step predef d st with
      | Some st' => steps predef ds' st'
      | None => None
      end
  end.

(** Reading a whole file into an environment; a conditional left open at
    the end of the file is an error. *)
Definition include (predef : env) (file : list directive) (ms : env) : option env :=
  match steps predef file (mkState ms []) with
  | Some (mkState ms' []) => Some ms'
  | _ => None
  end.

(** The macros whose replacement is an identifier: the renaming rules. *)
Fixpoint renamings (ms : env) : list (string * string) :=
  match ms with
  | [] => []
  | (k, Some v) :: ms' => (k, v) :: renamings ms'
  | (_, None) :: ms' => renamings ms'
  end.

End Cpp.

(** ** The renaming table *)

(** The environment after the header has been read once on platform [p]. *)
Definition load (p : platform) : option Cpp.env :=
  Cpp.include (predefined p) prefix_symbols_asm_h [].

Definition loaded (p : platform) : Cpp.env :=
  match load p with Some ms => ms | None => [] end.

(** The rules (canonical name, exported name) of a platform class, in the
    order of the file. *)
Definition table (p : platform) : list (string * string) :=
  Cpp.renamings (loaded p).

Definition canonical (p : platform) : list string := map fst (table p).
Definition exported (p : platform) : list string := map snd (table p).

(** [renames p n e]: the branch of [p] has the rule [#define n e]. *)
Definition renames (p : platform) (n e : string) : Prop := In (n, e) (table p).

(** The Symbol Rewriter: the exported name of a canonical name, if any. *)
Definition lookup (p : platform) (n : string) : option string :=
  Cpp.assoc n (table p).

(** ** Version tag and naming convention *)

Definition version_tag : string := "ring_core_0_17_14".

(** The leading underscore of Apple symbols. *)
Definition underscore (p : platform) : string :=
  match p with
  | Apple => "_"
  | Other => ""
  end.

(** The tag as it shows in the names of a platform class:
    [_ring_core_0_17_14] on Apple, [ring_core_0_17_14] elsewhere. *)
Definition tag (p : platform) : string := underscore p ++ version_tag.

(** [contains t s]: [t] occurs in [s]. *)
Definition contains (t s : string) : Prop := exists a b, s = a ++ t ++ b.

Fixpoint infixb (t s : string) : bool :=
  String.prefix t s
  || match s with
     | EmptyString => false
     | String _ s' => infixb t s'
     end.

Fixpoint nodupb (l : list string) : bool :=
  match l with
  | [] => true
  | x :: l' => negb (Cpp.mem x l') && nodupb l'
  end.

Definition pair_eqb (a b : string * string) : bool :=
  String.eqb (fst a) (fst b) && String.eqb (snd a) (snd b).

(** The first seven rules of a branch (lines 6-12 and 170-176), written
    without the platform underscore: the [ecp_nistz256] entry points are
    given the names of their [p256] counterparts. *)
Definition nistz256_aliases : list (string * string) :=
  [ ("ecp_nistz256_point_double", "p256_point_double");
    ("ecp_nistz256_point_add", "p256_point_add");
    ("ecp_nistz256_point_add_affine", "p256_point_add_affine");
    ("ecp_nistz256_ord_mul_mont", "p256_scalar_mul_mont");
    ("ecp_nistz256_ord_sqr_mont", "p256_scalar_sqr_rep_mont");
    ("ecp_nistz256_mul_mont", "p256_mul_mont");
    ("ecp_nistz256_sqr_mont", "p256_sqr_mont") ].

(** A rule with the platform underscore put before both of its names. *)
Definition underscored (p : platform) (r : string * string) : string * string :=
  (underscore p ++ fst r, underscore p ++ snd r).

Definition alias_rules (p : platform) : list (string * string) :=
  map (underscored p) nistz256_aliases.

Definition is_alias (p : platform) (r : string * string) : bool :=
  existsb (pair_eqb r) (alias_rules p).

(** ** Macro replacement *)

(** One replacement of the identifier [n] once the header has been read:
    what the macro [n] stands for, the empty text for the guard, whose
    replacement is empty; a name that is no macro stands for itself. *)
Definition rename (p : platform) (n : string) : string :=
  match Cpp.assoc n (loaded p) with
  | Some (Some e) => e
  | Some None => ""
  | None => n
  end.

(** ** What a consumer of the header can do *)

Inductive operation : Type :=
| Expand (n : string)        (* use the identifier n *)
| Include.                   (* #include the header once more *)

(** An operation on an environment: the environment after it and what the
    operation yields. *)
Definition perform (p : platform) (o : operation) (ms : Cpp.env)
  : option (Cpp.env * option string) :=
  match o with
  | Expand n => Some (ms, Cpp.assoc n (Cpp.renamings ms))
  | Include =>
      match Cpp.include (predefined p) prefix_symbols_asm_h ms with
      | Some ms' => Some (ms', None)
      | None => None
      end
  end.

Fixpoint run (p : platform) (os : list operation) (ms : Cpp.env)
  : option (Cpp.env * list (option string)) :=
  match os with
  | [] => Some (ms, [])
  | o :: os' =>
      match perform p o ms with
      | Some (ms', r) =>
          match run p os' ms' with
          | Some (ms'', rs) => Some (ms'', r :: rs)
          | None => None
          end
      | None => None
      end
  end.

(** ** Checks run over the rules of a branch *)

(** A canonical name without its platform underscore. *)
Definition strip (p : platform) (n : string) : string :=
  match p, n with
  | Apple, String _ s => s
  | _, _ => n
  end.

(** The rule renames [_ s] to [_ ring_core_0_17_14 __ s], the underscores
    in front on Apple only. *)
Definition tagged_form (p : platform) (r : string * string) : bool :=
  let s := strip p (fst r) in
  String.eqb (fst r) (underscore p ++ s) && String.eqb (snd r) (tag p ++ "__" ++ s).

(** The rule is of the tagged form, or it is an alias whose exported name
    is free of the tag and is renamed by the rules [t] to a name with it. *)
Definition rule_tagged (p : platform) (t : list (string * string))
    (r : string * string) : bool :=
  if is_alias p r
  then negb (infixb (tag p) (snd r))
       && match Cpp.assoc (snd r) t with
          | Some e' => infixb (tag p) e'
          | None => false
          end
  else tagged_form p r.

(** The exported name of a rule is one of the canonical names [ks]. *)
Definition chained (ks : list string) (r : string * string) : bool :=
  Cpp.mem (snd r) ks.

(** One replacement by the rules [t]. *)
Definition rename_in (t : list (string * string)) (n : string) : string :=
  match Cpp.assoc n t with
  | Some e => e
  | None => n
  end.

(** Two replacements from the canonical name of a rule give a name that a
    further replacement leaves alone and that starts with the tag. *)
Definition settles (p : platform) (t : list (string * string))
    (r : string * string) : bool :=
  let e2 := rename_in t (rename_in t (fst r)) in
  String.eqb (rename_in t e2) e2 && String.prefix (tag p) e2.

(** What a consumer gets from an operation on the table of [p]. *)
Definition answer (p : platform) (o : operation) : option string :=
  match o with
  | Expand n => lookup p n
  | Include => None
  end.

(** ** The structure of the header *)

(** The macro of the include guard (lines 2 and 3). *)
Definition guard_name : string := "ring_core_generated_PREFIX_SYMBOLS_ASM_H".

(** The macro names a line tests or defines. *)
Definition names_of (d : directive) : list string :=
  match d with
  | Ifndef m => [m]
  | IfDefined m => [m]
  | DefineEmpty m => [m]
  | Define old _ => [old]
  | _ => []
  end.

Definition names (ds : list directive) : list string := flat_map names_of ds.

(** The macro names the conditionals of a file test. *)
Definition tested_of (d : directive) : list string :=
  match d with
  | Ifndef m => [m]
  | IfDefined m => [m]
  | _ => []
  end.

Definition tested (ds : list directive) : list string := flat_map tested_of ds.

(** The platform class the predefined macros select. *)
Definition platform_of (predef : Cpp.env) : platform :=
  if Cpp.is_defined predef [] "__APPLE__" then Apple else Other.

(** The macro names a line defines. *)
Definition defined_of (d : directive) : list string :=
  match d with
  | DefineEmpty m => [m]
  | Define old _ => [old]
  | _ => []
  end.

Definition defined_names (ds : list directive) : list string :=
  flat_map defined_of ds.

(** The lines between the [#ifndef] of the guard and its [#endif]
    (lines 3 to 333). *)
Definition guarded_body : list directive :=
  firstn 331 (skipn 2 prefix_symbols_asm_h).

(** The lines after the [#define] of the guard (lines 4 to 334). *)
Definition after_guard : list directive := skipn 3 prefix_symbols_asm_h.

(** The nesting of conditionals after some lines, from a nesting of [n]
    inside the group being read; [None] if a line closes that group. *)
Fixpoint nesting (ds : list directive) (n : nat) : option nat :=
  match ds with
  | [] => Some n
  | d :: ds' =>
      match d with
      | Ifndef _ => nesting ds' (S n)
      | IfDefined _ => nesting ds' (S n)
      | Else => match n with O => None | S _ => nesting ds' n end
      | Endif => match n with O => None | S n' => nesting ds' n' end
      | _ => nesting ds' n
      end
  end.

(** The state with the entries [ms] put before its environment. *)
Definition prepend (ms : Cpp.env) (st : Cpp.state) : Cpp.state :=
  Cpp.mkState (ms ++ Cpp.macros st)%list (Cpp.conds st).

(** All the names of the rules of a branch, canonical and exported. *)
Definition branch_names (p : platform) : list string :=
  (canonical p ++ exported p)%list.

(** ** Identifiers *)

Definition is_letter (c : ascii) : bool :=
  let n := nat_of_ascii c in
  ((65 <=? n)%nat && (n <=? 90)%nat) || ((97 <=? n)%nat && (n <=? 122)%nat)
  || (n =? 95)%nat.

Definition is_digit (c : ascii) : bool :=
  let n := nat_of_ascii c in (48 <=? n)%nat && (n <=? 57)%nat.

Fixpoint identifier_tail (s : string) : bool :=
  match s with
  | EmptyString => true
  | String c s' => (is_letter c || is_digit c) && identifier_tail s'
  end.

(** A C identifier: a letter or an underscore, then letters, digits and
    underscores. *)
Definition is_identifier (s : string) : bool :=
  match s with
  | EmptyString => false
  | String c s' => is_letter c && identifier_tail s'
  end.

(** ** More checks run over the rules of a branch *)

Definition directive_eqb (a b : directive) : bool :=
  match a, b with
  | Blank, Blank => true
  | Ifndef m, Ifndef m' => String.eqb m m'
  | IfDefined m, IfDefined m' => String.eqb m m'
  | Else, Else => true
  | Endif, Endif => true
  | DefineEmpty m, DefineEmpty m' => String.eqb m m'
  | Define o n, Define o' n' => String.eqb o o' && String.eqb n n'
  | _, _ => false
  end.

(** A [#define old new] line is a rule of one of the two tables. *)
Definition line_taken (ta to : list (string * string)) (d : directive) : bool :=
  match d with
  | Define o n => existsb (pair_eqb (o, n)) ta || existsb (pair_eqb (o, n)) to
  | _ => true
  end.

(** The rule is a line of the file [ds]. *)
Definition rule_written (ds : list directive) (r : string * string) : bool :=
  existsb (directive_eqb (Define (fst r) (snd r))) ds.

(** Two rules of [t] with distinct canonical names that two replacements
    take to the same name: one renames its name to the name of the other. *)
Definition collide_as_alias (t : list (string * string)) (r1 r2 : string * string) : bool :=
  String.eqb (fst r1) (fst r2)
  || negb (String.eqb (rename_in t (rename_in t (fst r1)))
                      (rename_in t (rename_in t (fst r2))))
  || String.eqb (snd r1) (fst r2)
  || String.eqb (snd r2) (fst r1).

(** The environment [ms] has no definition of the name [k]. *)
Definition fresh_for (ms : Cpp.env) (k : string) : bool :=
  match Cpp.assoc k ms with
  | None => true
  | Some _ => false
  end.

(** The version tag does not occur in the name. *)
Definition untagged (k : string) : bool := negb (infixb version_tag k).

(** The name does not start with an underscore. *)
Definition plain (k : string) : bool := negb (String.prefix "_" k).

(** Both names of the rule are identifiers. *)
Definition rule_identifiers (r : string * string) : bool :=
  is_identifier (fst r) && is_identifier (snd r).

(** The rules of [t], each with the name two replacements give from its
    canonical name. *)
Definition resolved (t : list (string * string)) : list ((string * string) * string) :=
  map (fun r => (r, rename_in t (rename_in t (fst r)))) t.

Definition collide_resolved (a b : (string * string) * string) : bool :=
  String.eqb (fst (fst a)) (fst (fst b))
  || negb (String.eqb (snd a) (snd b))
  || String.eqb (snd (fst a)) (fst (fst b))
  || String.eqb (snd (fst b)) (fst (fst a)).

(** [collide_as_alias] on every pair of rules of [t]. *)
Definition collisions_ok (t : list (string * string)) : bool :=
  let rs := resolved t in
  forallb (fun a => forallb (collide_resolved a) rs) rs.

(** The name is not the macro of the include guard. *)
Definition not_guard (k : string) : bool := negb (String.eqb k guard_name).

(** ** Translation units *)





(** * Properties *)

(** ** Association lists keyed by strings *)

Section AssocLists.

Context {A : Type}.
Implicit Types (k : string) (l : list (string * A)).

Lemma mem_In (k : string) (l : list string) : Cpp.mem k l = true <-> In k l.
Proof.
  unfold Cpp.mem. rewrite existsb_exists. split.
  - intros [x [Hx He]]. apply String.eqb_eq in He. now subst.
  - intros H. exists k. split; [assumption | apply String.eqb_refl].
Qed.

Lemma nodupb_NoDup (l : list string) : nodupb l = true -> NoDup l.
Proof.
  induction l as [|x l IH]; simpl; intros H.
  - constructor.
  - apply andb_prop in H. destruct H as [Hx Hl]. constructor.
    + intros Hin. apply mem_In in Hin. rewrite Hin in Hx. discriminate.
    + now apply IH.
Qed.

Lemma assoc_In k l (a : A) : Cpp.assoc k l = Some a -> In (k, a) l.
Proof.
  induction l as [|[k' a'] l IH]; simpl; [discriminate|].
  destruct (String.eqb_spec k k') as [->|Hne].
  - intros [= ->]. now left.
  - intros H. right. now apply IH.
Qed.

Lemma assoc_None k l : Cpp.assoc k l = None <-> ~ In k (map fst l).
Proof.
  induction l as [|[k' a'] l IH]; simpl.
  - tauto.
  - destruct (String.eqb_spec k k') as [->|Hne].
    + split; [discriminate | intros H; exfalso; apply H; now left].
    + rewrite IH. split.
      * intros H [He|Hin]; [now apply Hne | now apply H].
      * intros H Hin. apply H. now right.
Qed.

Lemma In_assoc k l (a : A) :
  NoDup (map fst l) -> In (k, a) l -> Cpp.assoc k l = Some a.
Proof.
  induction l as [|[k' a'] l IH]; simpl; [tauto|].
  intros Hnd [He|Hin].
  - injection He as -> ->. now rewrite String.eqb_refl.
  - inversion Hnd as [|? ? Hnotin Hnd']; subst.
    destruct (String.eqb_spec k k') as [->|Hne].
    + exfalso. apply Hnotin. change k' with (fst (k', a)). now apply in_map.
    + now apply IH.
Qed.

Lemma In_fst_assoc k l : In k (map fst l) -> exists a, Cpp.assoc k l = Some a.
Proof.
  intros Hin. destruct (Cpp.assoc k l) as [a|] eqn:E.
  - now exists a.
  - apply assoc_None in E. contradiction.
Qed.

End AssocLists.

Lemma NoDup_snd_inj (l : list (string * string)) k1 k2 v :
  NoDup (map snd l) -> In (k1, v) l -> In (k2, v) l -> k1 = k2.
Proof.
  induction l as [|[k' v'] l IH]; simpl; [tauto|].
  intros Hnd H1 H2. inversion Hnd as [|? ? Hnotin Hnd']; subst.
  assert (Hv : forall k, In (k, v') l -> False).
  { intros k Hk. apply Hnotin. change v' with (snd (k, v')). now apply in_map. }
  destruct H1 as [E1|H1], H2 as [E2|H2].
  - congruence.
  - injection E1 as -> ->. exfalso. eauto.
  - injection E2 as -> ->. exfalso. eauto.
  - now apply IH.
Qed.

(** ** Occurrences of a string in another *)

Lemma prefix_app (t s : string) : String.prefix t s = true <-> exists b, s = t ++ b.
Proof.
  revert s. induction t as [|c t IH]; intros s.
  - split; [intros _; now exists s | intros _; destruct s; reflexivity].
  - destruct s as [|c' s]; simpl.
    + split; [discriminate | intros [b Hb]; discriminate].
    + destruct (Ascii.ascii_dec c c') as [E|Hne].
      * subst c'. rewrite IH. split; intros [b Hb]; exists b; simpl in *; congruence.
      * split; [discriminate | intros [b Hb]; simpl in Hb; congruence].
Qed.

Lemma infixb_contains (t s : string) : infixb t s = true <-> contains t s.
Proof.
  unfold contains. induction s as [|c s IH]; cbn [infixb].
  - rewrite orb_false_r, prefix_app. split.
    + intros [b Hb]. now exists "", b.
    + intros [a [b H]]. destruct a; [now exists b | discriminate].
  - rewrite orb_true_iff, IH, prefix_app. split.
    + intros [[b Hb]|[a [b H]]].
      * now exists "", b.
      * exists (String c a), b. simpl. now rewrite H.
    + intros [a [b H]]. destruct a as [|c' a].
      * left. now exists b.
      * right. exists a, b. simpl in H. congruence.
Qed.

(** ** The table, as the preprocessor builds it *)


Lemma load_ok (p : platform) : load p = Some (loaded p).
Proof. destruct p; vm_compute; reflexivity. Qed.

Lemma table_length (p : platform) : length (table p) = 162.
Proof. destruct p; vm_compute; reflexivity. Qed.

Lemma canonical_NoDup (p : platform) : NoDup (canonical p).
Proof. apply nodupb_NoDup. destruct p; vm_compute; reflexivity. Qed.

Lemma exported_NoDup (p : platform) : NoDup (exported p).
Proof. apply nodupb_NoDup. destruct p; vm_compute; reflexivity. Qed.

Lemma lookup_renames (p : platform) (n e : string) :
  lookup p n = Some e <-> renames p n e.
Proof.
  unfold lookup, renames. split.
  - apply assoc_In.
  - apply In_assoc, canonical_NoDup.
Qed.

(** A property checked on every rule holds of every rule. *)
Lemma table_forall (p : platform) (f : string * string -> bool) :
  forallb f (table p) = true -> forall n e, renames p n e -> f (n, e) = true.
Proof.
  intros H n e Hin. rewrite forallb_forall in H. now apply H.
Qed.

Lemma pair_eqb_eq (a b : string * string) : pair_eqb a b = true <-> a = b.
Proof.
  destruct a as [a1 a2], b as [b1 b2]. unfold pair_eqb. simpl.
  rewrite andb_true_iff, !String.eqb_eq. split.
  - intros [-> ->]. reflexivity.
  - intros [= -> ->]. split; reflexivity.
Qed.

Lemma is_alias_In (p : platform) (r : string * string) :
  is_alias p r = true <-> In r (alias_rules p).
Proof.
  unfold is_alias. rewrite existsb_exists. split.
  - intros [x [Hx He]]. apply pair_eqb_eq in He. now subst.
  - intros H. exists r. split; [assumption | now apply pair_eqb_eq].
Qed.

(** ** The Apple branch against the other branch *)

Lemma table_Apple : table Apple = map (underscored Apple) (table Other).
Proof. vm_compute. reflexivity. Qed.

Lemma underscored_Apple_inj (r r' : string * string) :
  underscored Apple r = underscored Apple r' -> r = r'.
Proof.
  destruct r, r'. unfold underscored. simpl. intros [= -> ->]. reflexivity.
Qed.

Section Underscored.

(** A list of rules [l] and the same rules with an underscore before both
    names, [l']. *)
Variables l l' : list (string * string).
Hypothesis Hl : l' = map (underscored Apple) l.

Lemma underscored_keys : map fst l' = map (String.append "_") (map fst l).
Proof. rewrite Hl, !map_map. reflexivity. Qed.

Lemma underscored_In (n e : string) : In (n, e) l <-> In ("_" ++ n, "_" ++ e) l'.
Proof.
  rewrite Hl. change ("_" ++ n, "_" ++ e) with (underscored Apple (n, e)). split.
  - apply in_map.
  - intros H. apply in_map_iff in H. destruct H as [r [Hr Hin]].
    apply underscored_Apple_inj in Hr. now subst.
Qed.

Lemma underscored_assoc (n : string) :
  Cpp.assoc ("_" ++ n) l' = option_map (String.append "_") (Cpp.assoc n l).
Proof.
  rewrite Hl. clear Hl. induction l as [|[k v] t IH]; simpl; [reflexivity|].
  destruct (String.eqb n k); [reflexivity | exact IH].
Qed.

End Underscored.

Lemma underscored_names (ks ks' : list string) :
  ks' = map (String.append "_") ks ->
  (forall n, In n ks <-> In ("_" ++ n) ks')
  /\ (forall m, In m ks' -> exists n, m = "_" ++ n /\ In n ks).
Proof.
  intros ->. split.
  - intros n. split.
    + apply in_map.
    + intros H. apply in_map_iff in H. destruct H as [m [Hm Hin]].
      injection Hm as ->. exact Hin.
  - intros m H. apply in_map_iff in H. destruct H as [n [Hn Hin]].
    exists n. split; [now symmetry | exact Hin].
Qed.

(** ** The claims *)

(** C3: the canonical name CRYPTO_memcmp, written _CRYPTO_memcmp on Apple
    platforms, is renamed to _ring_core_0_17_14__CRYPTO_memcmp there (line 15
    of the file) and to ring_core_0_17_14__CRYPTO_memcmp elsewhere (line
    179). *)
Theorem CRYPTO_memcmp_renamed :
  lookup Apple "_CRYPTO_memcmp" = Some "_ring_core_0_17_14__CRYPTO_memcmp"
  /\ lookup Other "CRYPTO_memcmp" = Some "ring_core_0_17_14__CRYPTO_memcmp"
  /\ nth_error prefix_symbols_asm_h 14
     = Some (Define "_CRYPTO_memcmp" "_ring_core_0_17_14__CRYPTO_memcmp")
  /\ nth_error prefix_symbols_asm_h 178
     = Some (Define "CRYPTO_memcmp" "ring_core_0_17_14__CRYPTO_memcmp").
Proof. repeat split; vm_compute; reflexivity. Qed.

(** C2: within a platform class the table is injective: two rules with
    distinct canonical names have distinct exported names. *)
Theorem renaming_injective (p : platform) (n1 n2 e1 e2 : string) :
  renames p n1 e1 -> renames p n2 e2 -> n1 <> n2 -> e1 <> e2.
Proof.
  intros H1 H2 Hne He. subst e2. apply Hne.
  exact (NoDup_snd_inj (table p) n1 n2 e1 (exported_NoDup p) H1 H2).
Qed.

Lemma renaming_injective_witness :
  renames Other "ecp_nistz256_point_double" "p256_point_double"
  /\ renames Other "p256_point_double" "ring_core_0_17_14__p256_point_double"
  /\ "p256_point_double" <> "ring_core_0_17_14__p256_point_double".
Proof.
  assert (H1 : renames Other "ecp_nistz256_point_double" "p256_point_double")
    by (apply (proj1 (lookup_renames _ _ _)); vm_compute; reflexivity).
  assert (H2 : renames Other "p256_point_double" "ring_core_0_17_14__p256_point_double")
    by (apply (proj1 (lookup_renames _ _ _)); vm_compute; reflexivity).
  refine (conj H1 (conj H2 _)).
  apply (renaming_injective Other "ecp_nistz256_point_double" "p256_point_double"
           "p256_point_double" "ring_core_0_17_14__p256_point_double" H1 H2).
  discriminate.
Defined.

(** C4: for each platform class the table is a function on its canonical
    names: no canonical name is the left-hand side of two rules, and every
    canonical name has exactly one exported name. *)
Theorem table_total_function (p : platform) :
  NoDup (canonical p)
  /\ forall n, In n (canonical p) ->
       exists e, lookup p n = Some e /\ forall e', renames p n e' -> e' = e.
Proof.
  split; [apply canonical_NoDup|].
  intros n Hn. destruct (In_fst_assoc n (table p) Hn) as [e He].
  exists e. split; [exact He|].
  intros e' He'. apply lookup_renames in He'. unfold lookup in He'. congruence.
Qed.

Lemma table_total_function_witness :
  exists e, lookup Apple "_bn_mul_mont" = Some e
            /\ forall e', renames Apple "_bn_mul_mont" e' -> e' = e.
Proof.
  apply (proj2 (table_total_function Apple) "_bn_mul_mont").
  apply (proj1 (mem_In _ _)). vm_compute. reflexivity.
Defined.

(** C5: the two branches rename the same canonical names: the canonical
    names of the Apple branch are those of the other branch, in the same
    order, each with an underscore in front. *)
Theorem canonical_sets_agree :
  canonical Apple = map (String.append "_") (canonical Other)
  /\ (forall n, In n (canonical Other) <-> In ("_" ++ n) (canonical Apple))
  /\ (forall m, In m (canonical Apple) -> exists n, m = "_" ++ n /\ In n (canonical Other)).
Proof.
  assert (E : canonical Apple = map (String.append "_") (canonical Other))
    by exact (underscored_keys (table Other) (table Apple) table_Apple).
  exact (conj E (underscored_names (canonical Other) (canonical Apple) E)).
Qed.

(** C6: the Apple branch is the other branch with an underscore put before
    both names of every rule: n is renamed to e off Apple exactly when _n is
    renamed to _e on Apple. *)
Theorem apple_rules_are_underscored :
  table Apple = map (underscored Apple) (table Other)
  /\ (forall n e, renames Other n e <-> renames Apple ("_" ++ n) ("_" ++ e))
  /\ (forall n, lookup Apple ("_" ++ n) = option_map (String.append "_") (lookup Other n)).
Proof.
  split; [exact table_Apple|]. split.
  - exact (underscored_In (table Other) (table Apple) table_Apple).
  - exact (underscored_assoc (table Other) (table Apple) table_Apple).
Qed.

(** C7: the lookup yields an exported name exactly for the canonical names of
    the platform class; on any other name, and on no canonical name, it
    yields nothing.  Nothing else fails: the header itself is read without
    an error on either platform. *)
Theorem lookup_defined_iff_canonical (p : platform) (n : string) :
  load p = Some (loaded p)
  /\ ((exists e, lookup p n = Some e) <-> In n (canonical p))
  /\ (lookup p n = None <-> ~ In n (canonical p)).
Proof.
  split; [apply load_ok|]. split; [|apply assoc_None]. split.
  - intros [e He]. apply assoc_In in He.
    change n with (fst (n, e)). now apply in_map.
  - apply In_fst_assoc.
Qed.

(** ** The tag in the exported names *)

Lemma rules_tagged (p : platform) : forallb (rule_tagged p (table p)) (table p) = true.
Proof. destruct p; vm_compute; reflexivity. Qed.

Lemma tagged_form_spec (p : platform) (n e : string) :
  tagged_form p (n, e) = true ->
  exists s, n = underscore p ++ s /\ e = tag p ++ "__" ++ s.
Proof.
  unfold tagged_form. simpl fst; simpl snd. intros H.
  apply andb_prop in H. destruct H as [Hn He].
  apply String.eqb_eq in Hn, He. exists (strip p n). now split.
Qed.

(** At an alias rule the claim fails as it is stated: the rule of line 170
    exports [p256_point_double] and the rule of line 6 exports
    [_p256_point_double], names in which the tag does not occur. *)
Lemma alias_exports_name_without_tag :
  (renames Other "ecp_nistz256_point_double" "p256_point_double"
   /\ ~ contains "ring_core_0_17_14" "p256_point_double")
  /\ (renames Apple "_ecp_nistz256_point_double" "_p256_point_double"
      /\ ~ contains "_ring_core_0_17_14" "_p256_point_double").
Proof.
  split; split.
  - apply (proj1 (lookup_renames _ _ _)). vm_compute. reflexivity.
  - intros H. apply infixb_contains in H. vm_compute in H. discriminate H.
  - apply (proj1 (lookup_renames _ _ _)). vm_compute. reflexivity.
  - intros H. apply infixb_contains in H. vm_compute in H. discriminate H.
Qed.

(** C1, amended: every rule of a branch other than its seven ecp_nistz256
    alias rules renames a name [_ s] to [_ ring_core_0_17_14 __ s] (the
    underscores in front on Apple only), so its exported name contains the
    tag of the branch; an alias rule exports a p256 name that does not
    contain the tag and that the same branch renames to a name that does. *)
Theorem exported_name_tagged (p : platform) (n e : string) :
  renames p n e ->
  (~ In (n, e) (alias_rules p)
   /\ contains (tag p) e
   /\ exists s, n = underscore p ++ s /\ e = tag p ++ "__" ++ s)
  \/ (In (n, e) (alias_rules p)
      /\ ~ contains (tag p) e
      /\ exists e', renames p e e' /\ contains (tag p) e').
Proof.
  intros H. pose proof (table_forall p _ (rules_tagged p) n e H) as Hr.
  unfold rule_tagged in Hr. simpl snd in Hr. fold (lookup p e) in Hr.
  destruct (is_alias p (n, e)) eqn:Ea.
  - right. apply is_alias_In in Ea. split; [exact Ea|].
    apply andb_prop in Hr. destruct Hr as [Hno Hre]. simpl snd in *. split.
    + intros Hc. apply infixb_contains in Hc. rewrite Hc in Hno. discriminate.
    + destruct (lookup p e) as [e'|] eqn:El; [|discriminate].
      exists e'. split; [now apply lookup_renames | now apply infixb_contains].
  - left. split.
    + intros Hin. apply is_alias_In in Hin. congruence.
    + destruct (tagged_form_spec p n e Hr) as [s [Hn He]]. split.
      * exists "", ("__" ++ s). exact He.
      * now exists s.
Qed.

Lemma exported_name_tagged_witness :
  (~ In ("_CRYPTO_memcmp", "_ring_core_0_17_14__CRYPTO_memcmp") (alias_rules Apple)
   /\ contains (tag Apple) "_ring_core_0_17_14__CRYPTO_memcmp"
   /\ exists s, "_CRYPTO_memcmp" = underscore Apple ++ s
                /\ "_ring_core_0_17_14__CRYPTO_memcmp" = tag Apple ++ "__" ++ s)
  \/ (In ("_CRYPTO_memcmp", "_ring_core_0_17_14__CRYPTO_memcmp") (alias_rules Apple)
      /\ ~ contains (tag Apple) "_ring_core_0_17_14__CRYPTO_memcmp"
      /\ exists e', renames Apple "_ring_core_0_17_14__CRYPTO_memcmp" e'
                    /\ contains (tag Apple) e').
Proof.
  apply (exported_name_tagged Apple "_CRYPTO_memcmp" "_ring_core_0_17_14__CRYPTO_memcmp").
  apply (proj1 (lookup_renames _ _ _)). vm_compute. reflexivity.
Defined.

(** ** The table under the operations of a consumer *)

(** Reading the header again changes nothing: the include guard is defined
    and the whole body is skipped. *)
Lemma include_again (p : platform) :
  Cpp.include (predefined p) prefix_symbols_asm_h (loaded p) = Some (loaded p).
Proof. destruct p; vm_compute; reflexivity. Qed.

Lemma perform_loaded (p : platform) (o : operation) :
  perform p o (loaded p) = Some (loaded p, answer p o).
Proof.
  destruct o as [n|]; simpl.
  - reflexivity.
  - now rewrite include_again.
Qed.

(** C8: the table is never mutated: once the header has been read,
    whatever operations the consumers perform, an expansion or another
    inclusion of the header, the environment after them is the one the
    header built, and every expansion is answered from the same table. *)
Theorem table_never_mutated (p : platform) (os : list operation) :
  run p os (loaded p) = Some (loaded p, map (answer p) os)
  /\ run p (Include :: os) [] = Some (loaded p, None :: map (answer p) os).
Proof.
  assert (H : run p os (loaded p) = Some (loaded p, map (answer p) os)).
  { induction os as [|o os IH]; simpl run.
    - reflexivity.
    - rewrite perform_loaded, IH. reflexivity. }
  split; [exact H|].
  simpl run. fold (load p). rewrite load_ok, H. reflexivity.
Qed.

(** ** Chains of rules *)

Lemma chained_rules (p : platform) :
  filter (chained (canonical p)) (table p) = alias_rules p.
Proof. destruct p; vm_compute; reflexivity. Qed.

Lemma rules_settle (p : platform) : forallb (settles p (table p)) (table p) = true.
Proof. destruct p; vm_compute; reflexivity. Qed.

(** The environment the header builds: the guard, then the rules. *)
Lemma loaded_shape (p : platform) :
  loaded p = (guard_name, None) :: map (fun r => (fst r, Some (snd r))) (table p).
Proof. destruct p; vm_compute; reflexivity. Qed.

Lemma assoc_rules (n : string) (t : list (string * string)) :
  Cpp.assoc n (map (fun r => (fst r, Some (snd r))) t) = option_map Some (Cpp.assoc n t).
Proof.
  induction t as [|[k v] t IH]; simpl; [reflexivity|].
  destruct (String.eqb n k); [reflexivity | exact IH].
Qed.

Lemma assoc_loaded (p : platform) (n : string) :
  Cpp.assoc n (loaded p)
  = if String.eqb n guard_name then Some None else option_map Some (lookup p n).
Proof.
  rewrite loaded_shape. unfold lookup. rewrite <- assoc_rules. reflexivity.
Qed.

Lemma rename_guard (p : platform) : rename p guard_name = "".
Proof. unfold rename. now rewrite assoc_loaded, String.eqb_refl. Qed.

Lemma rename_empty (p : platform) : rename p "" = "".
Proof. destruct p; vm_compute; reflexivity. Qed.

Lemma rename_in_table (p : platform) (n : string) :
  n <> guard_name -> rename p n = rename_in (table p) n.
Proof.
  intros H. apply String.eqb_neq in H. unfold rename, rename_in.
  rewrite assoc_loaded, H. fold (lookup p n). destruct (lookup p n); reflexivity.
Qed.

Lemma rename_miss (p : platform) (n : string) :
  n <> guard_name -> lookup p n = None -> rename p n = n.
Proof.
  intros Hg H. rewrite (rename_in_table p n Hg). unfold rename_in.
  fold (lookup p n). now rewrite H.
Qed.

Lemma names_not_guard (p : platform) : forallb not_guard (branch_names p) = true.
Proof. destruct p; vm_compute; reflexivity. Qed.

Lemma canonical_not_guard (p : platform) (n : string) :
  In n (canonical p) -> n <> guard_name.
Proof.
  intros H. assert (Hb : In n (branch_names p)) by (apply in_or_app; now left).
  pose proof (proj1 (forallb_forall _ _) (names_not_guard p) n Hb) as Hn.
  unfold not_guard in Hn. apply negb_true_iff in Hn. now apply String.eqb_neq.
Qed.

Lemma exported_not_guard (p : platform) (n e : string) :
  renames p n e -> e <> guard_name.
Proof.
  intros H. assert (Hb : In e (branch_names p)).
  { apply in_or_app. right. change e with (snd (n, e)). now apply in_map. }
  pose proof (proj1 (forallb_forall _ _) (names_not_guard p) e Hb) as Hn.
  unfold not_guard in Hn. apply negb_true_iff in Hn. now apply String.eqb_neq.
Qed.

Lemma rename_in_not_guard (p : platform) (n : string) :
  n <> guard_name -> rename_in (table p) n <> guard_name.
Proof.
  intros H. unfold rename_in. destruct (Cpp.assoc n (table p)) as [e|] eqn:E.
  - apply assoc_In in E. exact (exported_not_guard p n e E).
  - exact H.
Qed.

(** Away from the guard, replacements are replacements by the rules. *)
Lemma rename2_in_table (p : platform) (n : string) :
  n <> guard_name ->
  rename p (rename p n) = rename_in (table p) (rename_in (table p) n).
Proof.
  intros H. rewrite (rename_in_table p n H).
  apply rename_in_table, rename_in_not_guard, H.
Qed.

Lemma rename3_in_table (p : platform) (n : string) :
  n <> guard_name ->
  rename p (rename p (rename p n))
  = rename_in (table p) (rename_in (table p) (rename_in (table p) n)).
Proof.
  intros H. rewrite (rename_in_table p n H).
  apply rename2_in_table, rename_in_not_guard, H.
Qed.

(** C10: in each branch the rules whose exported name is again a canonical
    name of the branch are exactly the seven ecp_nistz256 alias rules; every
    other exported name is not a canonical name; so two replacements take
    every name to a name that further replacement leaves alone, and from a
    canonical name they reach a name that starts with the tag of the
    branch. *)
Theorem alias_chain_settles (p : platform) :
  filter (chained (canonical p)) (table p) = alias_rules p
  /\ length (alias_rules p) = 7
  /\ (forall n e, renames p n e -> ~ In (n, e) (alias_rules p) -> ~ In e (canonical p))
  /\ (forall n, rename p (rename p (rename p n)) = rename p (rename p n))
  /\ (forall n, In n (canonical p) ->
        String.prefix (tag p) (rename p (rename p n)) = true).
Proof.
  split; [apply chained_rules|]. split; [reflexivity|]. split; [|split].
  - intros n e H Hna Hc. apply Hna. rewrite <- chained_rules.
    apply filter_In. split; [exact H|]. unfold chained. simpl snd.
    now apply (proj2 (mem_In _ _)).
  - intros n. destruct (String.eqb_spec n guard_name) as [->|Hg].
    + now rewrite rename_guard, !rename_empty.
    + rewrite (rename3_in_table p n Hg), (rename2_in_table p n Hg).
      destruct (lookup p n) as [e|] eqn:El.
      * apply lookup_renames in El.
        pose proof (table_forall p _ (rules_settle p) n e El) as Hs.
        unfold settles in Hs. simpl fst in Hs. apply andb_prop in Hs.
        destruct Hs as [Hs _]. now apply String.eqb_eq in Hs.
      * assert (E : rename_in (table p) n = n)
          by (unfold rename_in; fold (lookup p n); now rewrite El).
        now rewrite !E.
  - intros n Hn. rewrite (rename2_in_table p n (canonical_not_guard p n Hn)).
    destruct (In_fst_assoc n (table p) Hn) as [e He].
    apply assoc_In in He.
    pose proof (table_forall p _ (rules_settle p) n e He) as Hs.
    unfold settles in Hs. simpl fst in Hs. apply andb_prop in Hs.
    now destruct Hs as [_ Hs].
Qed.

Lemma alias_chain_settles_witness :
  String.prefix (tag Apple)
    (rename Apple (rename Apple "_ecp_nistz256_ord_sqr_mont")) = true.
Proof.
  apply (proj2 (proj2 (proj2 (proj2 (alias_chain_settles Apple))))).
  apply (proj1 (mem_In _ _)). vm_compute. reflexivity.
Defined.

(** * Further properties of the header *)

(** ** Reading a file in parts *)

Section Reading.

Variable predef : Cpp.env.

Lemma steps_app (a b : list directive) (st : Cpp.state) :
  Cpp.steps predef (a ++ b)%list st
  = match Cpp.steps predef a st with
    | Some st' => Cpp.steps predef b st'
    | None => None
    end.
Proof.
  revert st. induction a as [|d a IH]; intros st; simpl.
  - reflexivity.
  - destruct (Cpp.step predef d st) as [st'|]; [apply IH | reflexivity].
Qed.

Lemma inactive_under (ms : Cpp.env) (top base : list bool) :
  Cpp.active (Cpp.mkState ms (top ++ false :: base)%list) = false.
Proof.
  unfold Cpp.active. simpl. rewrite forallb_app. simpl. apply andb_false_r.
Qed.

(** Lines read inside a group that is being skipped change no macro, and
    leave the skipped group open as long as they do not close it. *)
Lemma steps_skipped (ms : Cpp.env) (base : list bool) (ds : list directive) :
  forall (top : list bool) (n : nat),
    nesting ds (length top) = Some n ->
    exists top', length top' = n
      /\ Cpp.steps predef ds (Cpp.mkState ms (top ++ false :: base)%list)
         = Some (Cpp.mkState ms (top' ++ false :: base)%list).
Proof.
  induction ds as [|d ds IH]; intros top n Hn.
  - simpl in Hn. injection Hn as <-. now exists top.
  - destruct d as [|m|m| | |m|o e]; simpl in Hn; simpl Cpp.steps; unfold Cpp.step.
    + apply IH, Hn.
    + simpl Cpp.macros; simpl Cpp.conds.
      apply (IH (negb (Cpp.is_defined predef ms m) :: top) n Hn).
    + simpl Cpp.macros; simpl Cpp.conds.
      apply (IH (Cpp.is_defined predef ms m :: top) n Hn).
    + destruct top as [|c cs]; [discriminate|]. simpl.
      apply (IH (negb c :: cs) n Hn).
    + destruct top as [|c cs]; [discriminate|]. simpl.
      apply (IH cs n Hn).
    + rewrite inactive_under. apply IH, Hn.
    + rewrite inactive_under. apply IH, Hn.
Qed.

(** A file whose lines all stand between [#ifndef g] and its [#endif] is
    skipped as a whole where [g] is defined. *)
Lemma guarded_file_skipped (ms : Cpp.env) (g : string) (body : list directive) :
  nesting body 0 = Some 0 ->
  Cpp.is_defined predef ms g = true ->
  Cpp.include predef (Blank :: Ifndef g :: (body ++ [Endif]))%list ms = Some ms.
Proof.
  intros Hb Hg. unfold Cpp.include. simpl Cpp.steps. simpl Cpp.macros.
  rewrite Hg. simpl negb. simpl Cpp.conds. rewrite steps_app.
  destruct (steps_skipped ms [] body [] 0 Hb) as [top' [Hl Hs]].
  simpl app in Hs. rewrite Hs.
  destruct top' as [|c cs]; [|discriminate]. reflexivity.
Qed.

End Reading.

Lemma header_shape :
  prefix_symbols_asm_h = (Blank :: Ifndef guard_name :: (guarded_body ++ [Endif]))%list.
Proof. vm_compute. reflexivity. Qed.

Lemma guarded_body_nesting : nesting guarded_body 0 = Some 0.
Proof. vm_compute. reflexivity. Qed.

Lemma header_skipped (predef ms : Cpp.env) :
  Cpp.is_defined predef ms guard_name = true ->
  Cpp.include predef prefix_symbols_asm_h ms = Some ms.
Proof.
  intros Hg. rewrite header_shape.
  exact (guarded_file_skipped predef ms guard_name guarded_body guarded_body_nesting Hg).
Qed.

(** X1: wherever the guard macro is defined, by the compiler or by an
    earlier line, reading the header changes nothing and fails on nothing. *)
Theorem include_guarded (predef : Cpp.env) (ms : Cpp.env) :
  Cpp.is_defined predef ms guard_name = true ->
  Cpp.include predef prefix_symbols_asm_h ms = Some ms.
Proof. exact (header_skipped predef ms). Qed.

Lemma include_guarded_witness :
  Cpp.include [("__linux__", Some "1")] prefix_symbols_asm_h
    [("FOO", Some "bar"); (guard_name, None); ("CRYPTO_memcmp", Some "mine")]
  = Some [("FOO", Some "bar"); (guard_name, None); ("CRYPTO_memcmp", Some "mine")].
Proof.
  apply (include_guarded [("__linux__", Some "1")]
           [("FOO", Some "bar"); (guard_name, None); ("CRYPTO_memcmp", Some "mine")]).
  vm_compute. reflexivity.
Defined.

(** ** Reading the header after other definitions *)

Lemma assoc_app {A : Type} (k : string) (l1 l2 : list (string * A)) :
  Cpp.assoc k l1 = None -> Cpp.assoc k (l1 ++ l2)%list = Cpp.assoc k l2.
Proof.
  induction l1 as [|[k' a] l1 IH]; simpl; [reflexivity|].
  destruct (String.eqb k k'); [discriminate | exact IH].
Qed.

Lemma assoc_app_found {A : Type} (k : string) (l1 l2 : list (string * A)) (a : A) :
  Cpp.assoc k l1 = Some a -> Cpp.assoc k (l1 ++ l2)%list = Some a.
Proof.
  induction l1 as [|[k' a'] l1 IH]; simpl; [discriminate|].
  destruct (String.eqb k k'); [trivial | exact IH].
Qed.

Section Frame.

Variable predef : Cpp.env.
Variable ms : Cpp.env.

Lemma definition_frame (m : Cpp.env) (k : string) :
  Cpp.assoc k ms = None ->
  Cpp.definition predef (ms ++ m)%list k = Cpp.definition predef m k.
Proof.
  intros H. unfold Cpp.definition.
  destruct (Cpp.assoc k predef) as [b|] eqn:E.
  - now rewrite !(assoc_app_found k predef _ b E).
  - now rewrite !(assoc_app k predef _ E), (assoc_app k ms m H).
Qed.

Lemma define_frame (k : string) (b : option string) (st : Cpp.state) :
  Cpp.assoc k ms = None ->
  Cpp.define predef k b (prepend ms st)
  = option_map (prepend ms) (Cpp.define predef k b st).
Proof.
  intros H. unfold Cpp.define, prepend. simpl Cpp.macros. simpl Cpp.conds.
  rewrite (definition_frame _ k H), <- app_assoc.
  destruct (Cpp.definition predef (Cpp.macros st) k) as [b'|]; [|reflexivity].
  destruct (Cpp.body_eqb b b'); reflexivity.
Qed.

Lemma step_frame (d : directive) (st : Cpp.state) :
  (forall k, In k (names_of d) -> Cpp.assoc k ms = None) ->
  Cpp.step predef d (prepend ms st) = option_map (prepend ms) (Cpp.step predef d st).
Proof.
  intros H.
  assert (Ha : Cpp.active (prepend ms st) = Cpp.active st) by reflexivity.
  destruct d as [|m|m| | |m|o e]; unfold Cpp.step; rewrite ?Ha.
  - reflexivity.
  - simpl Cpp.macros. unfold Cpp.is_defined.
    rewrite definition_frame by (apply H; now left). reflexivity.
  - simpl Cpp.macros. unfold Cpp.is_defined.
    rewrite definition_frame by (apply H; now left). reflexivity.
  - simpl Cpp.conds. destruct (Cpp.conds st); reflexivity.
  - simpl Cpp.conds. destruct (Cpp.conds st); reflexivity.
  - destruct (Cpp.active st); [|reflexivity]. apply define_frame, H. now left.
  - destruct (Cpp.active st); [|reflexivity]. apply define_frame, H. now left.
Qed.

Lemma steps_frame (ds : list directive) :
  (forall k, In k (names ds) -> Cpp.assoc k ms = None) ->
  forall st, Cpp.steps predef ds (prepend ms st)
             = option_map (prepend ms) (Cpp.steps predef ds st).
Proof.
  induction ds as [|d ds IH]; intros H st; simpl Cpp.steps.
  - reflexivity.
  - rewrite step_frame.
    + destruct (Cpp.step predef d st) as [st'|]; simpl option_map; [|reflexivity].
      apply IH. intros k Hk. apply H. unfold names. simpl. apply in_or_app. now right.
    + intros k Hk. apply H. unfold names. simpl. apply in_or_app. now left.
Qed.

End Frame.

(** ** Reading the header with other predefined macros *)

Section Predefined.

(** Two sets of predefined macros that define none of the names a file
    defines and agree on which of the names it tests are defined. *)
Variables predef predef' : Cpp.env.

Lemma definition_fresh (pd ms : Cpp.env) (k : string) :
  Cpp.assoc k pd = None -> Cpp.definition pd ms k = Cpp.assoc k ms.
Proof. intros H. unfold Cpp.definition. now apply assoc_app. Qed.

Lemma is_defined_split (pd ms : Cpp.env) (m : string) :
  Cpp.is_defined pd ms m
  = Cpp.is_defined pd [] m || match Cpp.assoc m ms with Some _ => true | None => false end.
Proof.
  unfold Cpp.is_defined, Cpp.definition. rewrite app_nil_r.
  destruct (Cpp.assoc m pd) as [b|] eqn:E.
  - now rewrite (assoc_app_found m pd ms b E).
  - now rewrite (assoc_app m pd ms E).
Qed.

Lemma step_predef (d : directive) (st : Cpp.state) :
  (forall m, In m (tested_of d) -> Cpp.is_defined predef [] m = Cpp.is_defined predef' [] m) ->
  (forall k, In k (defined_of d) -> Cpp.assoc k predef = None /\ Cpp.assoc k predef' = None) ->
  Cpp.step predef d st = Cpp.step predef' d st.
Proof.
  intros Ht Hd. destruct d as [|m|m| | |m|o e]; try reflexivity; unfold Cpp.step.
  - rewrite (is_defined_split predef), (is_defined_split predef'), (Ht m); [reflexivity|].
    now left.
  - rewrite (is_defined_split predef), (is_defined_split predef'), (Ht m); [reflexivity|].
    now left.
  - destruct (Hd m) as [H1 H2]; [now left|]. unfold Cpp.define.
    now rewrite (definition_fresh predef _ m H1), (definition_fresh predef' _ m H2).
  - destruct (Hd o) as [H1 H2]; [now left|]. unfold Cpp.define.
    now rewrite (definition_fresh predef _ o H1), (definition_fresh predef' _ o H2).
Qed.

Lemma steps_predef (ds : list directive) :
  (forall m, In m (tested ds) -> Cpp.is_defined predef [] m = Cpp.is_defined predef' [] m) ->
  (forall k, In k (defined_names ds) -> Cpp.assoc k predef = None /\ Cpp.assoc k predef' = None) ->
  forall st, Cpp.steps predef ds st = Cpp.steps predef' ds st.
Proof.
  induction ds as [|d ds IH]; intros Ht Hd st; simpl Cpp.steps; [reflexivity|].
  rewrite (step_predef d st).
  - destruct (Cpp.step predef' d st) as [st'|]; [|reflexivity].
    apply IH.
    + intros m Hm. apply Ht. unfold tested. simpl. apply in_or_app. now right.
    + intros k Hk. apply Hd. unfold defined_names. simpl. apply in_or_app. now right.
  - intros m Hm. apply Ht. unfold tested. simpl. apply in_or_app. now left.
  - intros k Hk. apply Hd. unfold defined_names. simpl. apply in_or_app. now left.
Qed.

End Predefined.

Lemma steps_loaded (p : platform) :
  Cpp.steps (predefined p) prefix_symbols_asm_h (Cpp.mkState [] [])
  = Some (Cpp.mkState (loaded p) []).
Proof. destruct p; vm_compute; reflexivity. Qed.

Lemma tested_header : tested prefix_symbols_asm_h = [guard_name; "__APPLE__"].
Proof. vm_compute. reflexivity. Qed.

Lemma guard_is_defined_name : In guard_name (defined_names prefix_symbols_asm_h).
Proof. apply (proj1 (mem_In _ _)). vm_compute. reflexivity. Qed.

(** The macros predefined for a platform class are none of the names the
    header defines. *)
Lemma predefined_fresh (p : platform) :
  forallb (fresh_for (predefined p)) (defined_names prefix_symbols_asm_h) = true.
Proof. destruct p; vm_compute; reflexivity. Qed.

Lemma predefined_agree (predef : Cpp.env) (m : string) :
  Cpp.assoc guard_name predef = None ->
  In m [guard_name; "__APPLE__"] ->
  Cpp.is_defined predef [] m = Cpp.is_defined (predefined (platform_of predef)) [] m.
Proof.
  intros Hg [<-|[<-|[]]].
  - unfold Cpp.is_defined at 1. unfold Cpp.definition. rewrite app_nil_r, Hg.
    unfold platform_of. destruct (Cpp.is_defined predef [] "__APPLE__"); reflexivity.
  - unfold platform_of. destruct (Cpp.is_defined predef [] "__APPLE__") eqn:E; reflexivity.
Qed.

Lemma include_platform (predef : Cpp.env) (ms : Cpp.env) :
  (forall k, In k (defined_names prefix_symbols_asm_h) -> Cpp.assoc k predef = None) ->
  (forall k, In k (names prefix_symbols_asm_h) -> Cpp.assoc k ms = None) ->
  Cpp.include predef prefix_symbols_asm_h ms
  = Some (ms ++ loaded (platform_of predef))%list.
Proof.
  intros Hp Hms. unfold Cpp.include.
  rewrite (steps_predef predef (predefined (platform_of predef)) prefix_symbols_asm_h).
  - replace (Cpp.mkState ms []) with (prepend ms (Cpp.mkState [] []))
      by (unfold prepend; simpl; now rewrite app_nil_r).
    rewrite (steps_frame _ ms prefix_symbols_asm_h Hms), steps_loaded.
    reflexivity.
  - intros m Hm. rewrite tested_header in Hm.
    apply predefined_agree; [|exact Hm]. apply Hp, guard_is_defined_name.
  - intros k Hk. split; [now apply Hp|].
    pose proof (proj1 (forallb_forall _ _) (predefined_fresh (platform_of predef)) k Hk) as Hf.
    unfold fresh_for in Hf.
    destruct (Cpp.assoc k (predefined (platform_of predef))); [discriminate | reflexivity].
Qed.

(** X2: read where no predefined macro has a name the header defines, after
    any earlier lines that define none of the names the header tests or
    defines, the header fails on nothing and adds to the environment the
    guard and the rules of one platform class and nothing else: the Apple
    class when [__APPLE__] is predefined, the other class otherwise. *)
Theorem include_fresh (predef : Cpp.env) (ms : Cpp.env) :
  (forall k, In k (defined_names prefix_symbols_asm_h) -> Cpp.assoc k predef = None) ->
  (forall k, In k (names prefix_symbols_asm_h) -> Cpp.assoc k ms = None) ->
  Cpp.include predef prefix_symbols_asm_h ms
  = Some (ms ++ loaded (platform_of predef))%list.
Proof. exact (include_platform predef ms). Qed.

Lemma fresh_for_all (ms : Cpp.env) (ks : list string) :
  forallb (fresh_for ms) ks = true -> forall k, In k ks -> Cpp.assoc k ms = None.
Proof.
  intros H k Hk. pose proof (proj1 (forallb_forall _ _) H k Hk) as Hf.
  unfold fresh_for in Hf. destruct (Cpp.assoc k ms); [discriminate | reflexivity].
Qed.

Lemma include_fresh_witness :
  Cpp.include [("__aarch64__", Some "1"); ("__APPLE__", Some "1")] prefix_symbols_asm_h
    [("NDEBUG", None); ("OPENSSL_NO_ASM", Some "1")]
  = Some ([("NDEBUG", None); ("OPENSSL_NO_ASM", Some "1")]
          ++ loaded (platform_of [("__aarch64__", Some "1"); ("__APPLE__", Some "1")]))%list.
Proof.
  apply (include_fresh [("__aarch64__", Some "1"); ("__APPLE__", Some "1")]
           [("NDEBUG", None); ("OPENSSL_NO_ASM", Some "1")]).
  - apply fresh_for_all. vm_compute. reflexivity.
  - apply fresh_for_all. vm_compute. reflexivity.
Defined.

(** ** The names of the two branches *)

Lemma forallb_In {A : Type} (f : A -> bool) (l : list A) :
  forallb f l = true -> forall x, In x l -> f x = true.
Proof. intros H. exact (proj1 (forallb_forall f l) H). Qed.

Lemma apple_names_underscored : forallb (String.prefix "_") (branch_names Apple) = true.
Proof. vm_compute. reflexivity. Qed.

Lemma other_names_plain : forallb plain (branch_names Other) = true.
Proof. vm_compute. reflexivity. Qed.

(** X3: the two branches share no name: every canonical and every exported
    name of the Apple branch starts with an underscore, and no canonical or
    exported name of the other branch does. *)
Theorem branches_share_no_name :
  (forall n, In n (branch_names Apple) -> String.prefix "_" n = true)
  /\ (forall n, In n (branch_names Other) -> String.prefix "_" n = false)
  /\ (forall n, In n (branch_names Apple) -> In n (branch_names Other) -> False).
Proof.
  assert (HA : forall n, In n (branch_names Apple) -> String.prefix "_" n = true)
    by exact (forallb_In _ _ apple_names_underscored).
  assert (HO : forall n, In n (branch_names Other) -> String.prefix "_" n = false).
  { intros n Hn. pose proof (forallb_In _ _ other_names_plain n Hn) as H.
    unfold plain in H. apply negb_true_iff in H. exact H. }
  refine (conj HA (conj HO _)).
  intros n Ha Ho. pose proof (HA n Ha) as H1. pose proof (HO n Ho) as H2.
  clear Ha Ho HA HO. congruence.
Qed.

Lemma branches_share_no_name_witness :
  String.prefix "_" "_ring_core_0_17_14__bn_mul_mont" = true
  /\ String.prefix "_" "bn_mul_mont" = false.
Proof.
  split.
  - apply (proj1 branches_share_no_name). apply (proj1 (mem_In _ _)).
    vm_compute. reflexivity.
  - apply (proj1 (proj2 branches_share_no_name)). apply (proj1 (mem_In _ _)).
    vm_compute. reflexivity.
Defined.

(** ** The lines of the file and the rules *)

Lemma mem_pair_In (r : string * string) (l : list (string * string)) :
  existsb (pair_eqb r) l = true <-> In r l.
Proof.
  rewrite existsb_exists. split.
  - intros [x [Hx He]]. apply pair_eqb_eq in He. now subst.
  - intros H. exists r. split; [assumption | now apply pair_eqb_eq].
Qed.

Lemma directive_eqb_eq (a b : directive) : directive_eqb a b = true -> a = b.
Proof.
  destruct a, b; simpl; try discriminate; try reflexivity.
  - intros H. apply String.eqb_eq in H. now subst.
  - intros H. apply String.eqb_eq in H. now subst.
  - intros H. apply String.eqb_eq in H. now subst.
  - intros H. apply andb_prop in H. destruct H as [H1 H2].
    apply String.eqb_eq in H1, H2. now subst.
Qed.

Lemma line_taken_spec (ds : list directive) (ta to : list (string * string)) :
  forallb (line_taken ta to) ds = true ->
  forall o n, In (Define o n) ds -> In (o, n) ta \/ In (o, n) to.
Proof.
  intros H o n Hd. pose proof (forallb_In _ _ H _ Hd) as Hl.
  unfold line_taken in Hl. apply orb_prop in Hl.
  destruct Hl as [Hl|Hl]; apply mem_pair_In in Hl; [now left | now right].
Qed.

Lemma rule_written_spec (ds : list directive) (t : list (string * string)) :
  forallb (rule_written ds) t = true ->
  forall o n, In (o, n) t -> In (Define o n) ds.
Proof.
  intros H o n Hr. pose proof (forallb_In _ _ H _ Hr) as Hw.
  unfold rule_written in Hw. simpl in Hw. apply existsb_exists in Hw.
  destruct Hw as [d [Hd He]]. apply directive_eqb_eq in He. now subst.
Qed.

Lemma lines_taken :
  forallb (line_taken (table Apple) (table Other)) prefix_symbols_asm_h = true.
Proof. vm_compute. reflexivity. Qed.

Lemma rules_written (p : platform) :
  forallb (rule_written prefix_symbols_asm_h) (table p) = true.
Proof. destruct p; vm_compute; reflexivity. Qed.

(** X4: the [#define old new] lines of the file are exactly the rules of the
    two branches: every such line is a rule on one platform class, so no
    line is dead, and every rule of a class is a line of the file. *)
Theorem define_lines_are_rules (o n : string) :
  In (Define o n) prefix_symbols_asm_h <-> renames Apple o n \/ renames Other o n.
Proof.
  unfold renames. split.
  - exact (line_taken_spec _ _ _ lines_taken o n).
  - intros [H|H].
    + exact (rule_written_spec _ _ (rules_written Apple) o n H).
    + exact (rule_written_spec _ _ (rules_written Other) o n H).
Qed.

(** ** Names that are left alone *)

Lemma canonical_untagged (p : platform) : forallb untagged (canonical p) = true.
Proof. destruct p; vm_compute; reflexivity. Qed.

Lemma guard_untagged : infixb version_tag guard_name = false.
Proof. vm_compute. reflexivity. Qed.

(** X5: the version tag is reserved: a name in which the tag occurs is the
    canonical name of no rule, on either platform, so a name that has its
    prefix already is never renamed again. *)
Theorem tagged_name_not_renamed (p : platform) (n : string) :
  contains version_tag n -> lookup p n = None /\ rename p n = n.
Proof.
  intros Hc. assert (H : lookup p n = None).
  { destruct (lookup p n) as [e|] eqn:El; [|reflexivity]. exfalso.
    assert (Hin : In n (canonical p)).
    { apply assoc_In in El. change n with (fst (n, e)). now apply in_map. }
    pose proof (forallb_In _ _ (canonical_untagged p) n Hin) as Hu.
    unfold untagged in Hu. apply infixb_contains in Hc. rewrite Hc in Hu.
    discriminate Hu. }
  split; [exact H|]. apply rename_miss; [|exact H].
  intros ->. apply infixb_contains in Hc. rewrite guard_untagged in Hc. discriminate Hc.
Qed.

Lemma tagged_name_not_renamed_witness :
  lookup Apple "_ring_core_0_17_14__CRYPTO_memcmp" = None
  /\ rename Apple "_ring_core_0_17_14__CRYPTO_memcmp" = "_ring_core_0_17_14__CRYPTO_memcmp".
Proof.
  apply (tagged_name_not_renamed Apple "_ring_core_0_17_14__CRYPTO_memcmp").
  exists "_", "__CRYPTO_memcmp". reflexivity.
Defined.

(** ** Names that resolve to the same symbol *)

Lemma collisions_ok_spec (t : list (string * string)) :
  collisions_ok t = true ->
  forall r1 r2, In r1 t -> In r2 t -> collide_as_alias t r1 r2 = true.
Proof.
  unfold collisions_ok. cbv zeta. intros H r1 r2 H1 H2.
  set (f := fun r : string * string => (r, rename_in t (rename_in t (fst r)))).
  assert (I1 : In (f r1) (resolved t)) by (apply in_map; exact H1).
  assert (I2 : In (f r2) (resolved t)) by (apply in_map; exact H2).
  pose proof (forallb_In _ _ H _ I1) as Ha. simpl in Ha.
  exact (forallb_In _ _ Ha _ I2).
Qed.

Lemma collisions_checked (p : platform) : collisions_ok (table p) = true.
Proof. destruct p; vm_compute; reflexivity. Qed.

(** X6: two distinct canonical names of a branch end, after replacement, at
    the same symbol only when one of them is renamed to the other: the
    table makes an alias of a name and its target and of no other pair. *)
Theorem same_symbol_only_by_alias (p : platform) (n1 n2 : string) :
  In n1 (canonical p) -> In n2 (canonical p) -> n1 <> n2 ->
  rename p (rename p n1) = rename p (rename p n2) ->
  renames p n1 n2 \/ renames p n2 n1.
Proof.
  intros H1 H2 Hne He.
  destruct (In_fst_assoc n1 (table p) H1) as [e1 E1].
  destruct (In_fst_assoc n2 (table p) H2) as [e2 E2].
  apply assoc_In in E1, E2.
  pose proof (collisions_ok_spec _ (collisions_checked p) _ _ E1 E2) as Hc2.
  unfold collide_as_alias in Hc2. simpl fst in Hc2. simpl snd in Hc2.
  rewrite (rename2_in_table p n1 (canonical_not_guard p n1 H1)) in He.
  rewrite (rename2_in_table p n2 (canonical_not_guard p n2 H2)) in He.
  rewrite He, String.eqb_refl in Hc2. simpl negb in Hc2.
  apply String.eqb_neq in Hne. rewrite Hne in Hc2. simpl in Hc2.
  apply orb_prop in Hc2. destruct Hc2 as [Hc2|Hc2]; apply String.eqb_eq in Hc2.
  - left. unfold renames. now rewrite <- Hc2.
  - right. unfold renames. now rewrite <- Hc2.
Qed.

Lemma same_symbol_only_by_alias_witness :
  renames Other "ecp_nistz256_mul_mont" "p256_mul_mont"
  \/ renames Other "p256_mul_mont" "ecp_nistz256_mul_mont".
Proof.
  apply (same_symbol_only_by_alias Other "ecp_nistz256_mul_mont" "p256_mul_mont").
  - apply (proj1 (mem_In _ _)). vm_compute. reflexivity.
  - apply (proj1 (mem_In _ _)). vm_compute. reflexivity.
  - discriminate.
  - vm_compute. reflexivity.
Defined.

(** ** The names as tokens *)

Lemma rules_identifiers (p : platform) : forallb rule_identifiers (table p) = true.
Proof. destruct p; vm_compute; reflexivity. Qed.

(** X7: both names of every rule are C identifiers, so every rule replaces
    one identifier token by one identifier token. *)
Theorem rule_names_are_identifiers (p : platform) (n e : string) :
  renames p n e -> is_identifier n = true /\ is_identifier e = true.
Proof.
  intros H. pose proof (table_forall p _ (rules_identifiers p) n e H) as Hi.
  unfold rule_identifiers in Hi. now apply andb_prop in Hi.
Qed.

Lemma rule_names_are_identifiers_witness :
  is_identifier "_ChaCha20_ctr32_ssse3_4x" = true
  /\ is_identifier "_ring_core_0_17_14__ChaCha20_ctr32_ssse3_4x" = true.
Proof.
  apply (rule_names_are_identifiers Apple).
  apply (proj1 (lookup_renames _ _ _)). vm_compute. reflexivity.
Defined.

(** ** The order of the rules *)

Lemma assoc_Permutation {A : Type} (k : string) (l l' : list (string * A)) :
  NoDup (map fst l) -> Permutation l l' -> Cpp.assoc k l' = Cpp.assoc k l.
Proof.
  intros Hnd Hp.
  assert (Hnd' : NoDup (map fst l')).
  { apply (Permutation_NoDup (l := map fst l)); [|exact Hnd]. now apply Permutation_map. }
  destruct (Cpp.assoc k l) as [a|] eqn:E.
  - apply In_assoc; [exact Hnd'|]. apply (Permutation_in _ Hp). now apply assoc_In.
  - apply assoc_None. apply assoc_None in E. intros Hin. apply E.
    apply (Permutation_in (l := map fst l')); [|exact Hin].
    apply Permutation_map. now apply Permutation_sym.
Qed.

(** X8: the order of the rules of a branch is immaterial: a lookup in the
    rules of the branch taken in any other order gives what the lookup in
    the table gives. *)
Theorem lookup_any_order (p : platform) (t : list (string * string)) (n : string) :
  Permutation (table p) t -> Cpp.assoc n t = lookup p n.
Proof.
  intros Hp. unfold lookup. apply assoc_Permutation; [apply canonical_NoDup | exact Hp].
Qed.

Lemma lookup_any_order_witness :
  Cpp.assoc "sha512_block_data_order" (rev (table Other))
  = lookup Other "sha512_block_data_order".
Proof.
  apply (lookup_any_order Other (rev (table Other)) "sha512_block_data_order").
  exact (Permutation_rev (table Other)).
Defined.

(** ** Reading the header twice *)

Section Growth.

Variable predef : Cpp.env.

(** A line removes and changes no entry of the environment. *)
Lemma step_extends (d : directive) (st st' : Cpp.state) :
  Cpp.step predef d st = Some st' ->
  exists ext, Cpp.macros st' = (Cpp.macros st ++ ext)%list.
Proof.
  assert (Hd : forall k b, Cpp.define predef k b st = Some st' ->
                           exists ext, Cpp.macros st' = (Cpp.macros st ++ ext)%list).
  { intros k b. unfold Cpp.define.
    destruct (Cpp.definition predef (Cpp.macros st) k) as [b'|];
      [destruct (Cpp.body_eqb b b'); [|discriminate]|];
      intros [= <-]; now exists [(k, b)]. }
  destruct d as [|m|m| | |m|o e]; unfold Cpp.step.
  - intros [= <-]. exists []. now rewrite app_nil_r.
  - intros [= <-]. exists []. simpl. now rewrite app_nil_r.
  - intros [= <-]. exists []. simpl. now rewrite app_nil_r.
  - destruct (Cpp.conds st); [discriminate|]. intros [= <-]. exists [].
    simpl. now rewrite app_nil_r.
  - destruct (Cpp.conds st); [discriminate|]. intros [= <-]. exists [].
    simpl. now rewrite app_nil_r.
  - destruct (Cpp.active st); [apply Hd|]. intros [= <-]. exists [].
    now rewrite app_nil_r.
  - destruct (Cpp.active st); [apply Hd|]. intros [= <-]. exists [].
    now rewrite app_nil_r.
Qed.

Lemma steps_extend (ds : list directive) :
  forall st st', Cpp.steps predef ds st = Some st' ->
                 exists ext, Cpp.macros st' = (Cpp.macros st ++ ext)%list.
Proof.
  induction ds as [|d ds IH]; intros st st'; simpl.
  - intros [= <-]. exists []. now rewrite app_nil_r.
  - destruct (Cpp.step predef d st) as [st1|] eqn:E; [|discriminate].
    intros H. destruct (step_extends d st st1 E) as [e1 H1].
    destruct (IH st1 st' H) as [e2 H2]. exists (e1 ++ e2)%list.
    now rewrite H2, H1, app_assoc.
Qed.

(** A file that starts with its guard leaves the guard defined. *)
Lemma include_defines_guard (g : string) (rest : list directive) (ms ms' : Cpp.env) :
  Cpp.is_defined predef ms g = false ->
  Cpp.include predef (Blank :: Ifndef g :: DefineEmpty g :: rest) ms = Some ms' ->
  Cpp.is_defined predef ms' g = true.
Proof.
  intros Hg. unfold Cpp.include. simpl Cpp.steps. simpl Cpp.macros. rewrite Hg.
  assert (Ha : Cpp.definition predef ms g = None).
  { unfold Cpp.is_defined in Hg.
    destruct (Cpp.definition predef ms g); [discriminate | reflexivity]. }
  unfold Cpp.define. simpl. rewrite Ha.
  destruct (Cpp.steps predef rest _) as [[m' c']|] eqn:S; [|discriminate].
  destruct c'; [|discriminate]. intros [= <-].
  destruct (steps_extend rest _ _ S) as [ext He]. simpl in He. rewrite He.
  unfold Cpp.is_defined, Cpp.definition in *.
  rewrite <- app_assoc, app_assoc, (assoc_app g (predef ++ ms)%list _ Ha). simpl.
  now rewrite String.eqb_refl.
Qed.

End Growth.

Lemma header_start :
  prefix_symbols_asm_h
  = Blank :: Ifndef guard_name :: DefineEmpty guard_name :: after_guard.
Proof. vm_compute. reflexivity. Qed.

Lemma include_twice (predef ms ms' : Cpp.env) :
  Cpp.include predef prefix_symbols_asm_h ms = Some ms' ->
  Cpp.include predef prefix_symbols_asm_h ms' = Some ms'.
Proof.
  intros H. apply header_skipped.
  destruct (Cpp.is_defined predef ms guard_name) eqn:G.
  - rewrite (header_skipped predef ms G) in H. injection H as <-. exact G.
  - rewrite header_start in H.
    exact (include_defines_guard predef guard_name after_guard ms ms' G H).
Qed.

(** X9: reading the header is idempotent: from any environment and with any
    predefined macros, if the header is read without an error, reading it
    once more succeeds and changes nothing. *)
Theorem include_idempotent (predef : Cpp.env) (ms ms' : Cpp.env) :
  Cpp.include predef prefix_symbols_asm_h ms = Some ms' ->
  Cpp.include predef prefix_symbols_asm_h ms' = Some ms'.
Proof. exact (include_twice predef ms ms'). Qed.

Lemma include_idempotent_witness :
  Cpp.include [] prefix_symbols_asm_h (loaded Other) = Some (loaded Other).
Proof.
  apply (include_idempotent [] [] (loaded Other)).
  vm_compute. reflexivity.
Defined.

(** ** The symbols of the two platforms *)





(** The guard is the one name at which the two platforms part: off Apple it
    is a macro that stands for the empty text, and on Apple the name with an
    underscore in front is no macro. *)
Lemma guard_replaced_by_nothing :
  rename Other guard_name = ""
  /\ rename Apple ("_" ++ guard_name) = "_" ++ guard_name.
Proof. split; vm_compute; reflexivity. Qed.



(** ** Two translation units *)








